(** * Run_GamingNetworkOptimization_Admin.py: the elevation launcher

    A shallow embedding of the three functions of the launcher script
    ([get_network_adapters_from_powershell], [select_guids_for_tweaks] and
    [run_script]) together with the properties of its specification.

    Conventions of the embedding.
    - Python [str] is [string] (a byte string); [str.strip], [str.lower] and
      [int] are modelled on ASCII text, which is what a console operator
      types at the prompts.
    - A parsed adapter record is a Python [dict] with string values: a
      [gmap string string].  Keys may be absent, as in the source, where the
      listing reads them with [dict.get] and the selection with [d[key]].
    - Console and operating-system effects are recorded, in program order, in
      a trace of [event]s; standard input is the finite list of the lines
      still to be read, and reading past its end raises [EOFError] as
      [input()] does. *)

From Stdlib Require Import Ascii String ZArith.
From stdpp Require Import gmap strings list pretty.

Open Scope string_scope.

(** ** Text helpers *)

Definition nl : string := String "010"%char EmptyString.
Definition dq : string := String "034"%char EmptyString.

(** [str.isspace] on ASCII: TAB, LF, VT, FF, CR, the four separators
    FS..US and the blank. *)
Definition is_space (c : ascii) : bool :=
  let n := nat_of_ascii c in
  ((9 <=? n)%nat && (n <=? 13)%nat) || ((28 <=? n)%nat && (n <=? 32)%nat).

Fixpoint py_lstrip (s : string) : string :=
  match s with
  | EmptyString => EmptyString
  | String c t => if is_space c then py_lstrip t else s
  end.

Fixpoint py_rstrip (s : string) : string :=
  match s with
  | EmptyString => EmptyString
  | String c t =>
      match py_rstrip t with
      | EmptyString => if is_space c then EmptyString else String c EmptyString
      | t' => String c t'
      end
  end.

(** [s.strip()] *)
Definition py_strip (s : string) : string := py_rstrip (py_lstrip s).

Definition lower_ascii (c : ascii) : ascii :=
  let n := nat_of_ascii c in
  if ((65 <=? n)%nat && (n <=? 90)%nat) then ascii_of_nat (n + 32) else c.

(** [s.lower()] *)
Fixpoint py_lower (s : string) : string :=
  match s with
  | EmptyString => EmptyString
  | String c t => String (lower_ascii c) (py_lower t)
  end.

Definition digit_value (c : ascii) : option Z :=
  let n := nat_of_ascii c in
  if ((48 <=? n)%nat && (n <=? 57)%nat) then Some (Z.of_nat (n - 48)) else None.

(** The digit part of a decimal literal accepted by [int]: digits, any two of
    them separated by at most one underscore.  [seen] tells whether the
    previous character was a digit. *)
Fixpoint parse_digits (acc : Z) (seen : bool) (s : string) : option Z :=
  match s with
  | EmptyString => if seen then Some acc else None
  | String c t =>
      if Ascii.eqb c "_"%char then
        if seen then parse_digits acc false t else None
      else
        match digit_value c with
        | Some d => parse_digits (10 * acc + d) true t
        | None => None
        end
  end.

(** [int(s)] on an already stripped string; [None] is [ValueError]. *)
Definition py_int (s : string) : option Z :=
  match s with
  | String "+"%char t => parse_digits 0 false t
  | String "-"%char t => Z.opp <$> parse_digits 0 false t
  | _ => parse_digits 0 false s
  end.

(** [sep.join(items)] *)
Definition py_join (sep : string) (items : list string) : string :=
  match items with
  | [] => EmptyString
  | x :: rest => x ++ String.concat EmptyString (map (String.append sep) rest)
  end.

(** ** Data model *)

Abbreviation AdapterRecord := (gmap string string).

(** [d.get(key, fallback)] *)
Definition dict_get (d : AdapterRecord) (key fallback : string) : string :=
  default fallback (d !! key).

(** What [json.loads] makes of the query's output: the serializer prints one
    adapter as a bare object, several as an array, and [null] is Python's
    [None]. *)
Inductive json_doc :=
| JsonNull
| JsonDict (d : AdapterRecord)
| JsonList (l : list AdapterRecord).

Inductive json_result :=
| JSONDecodeError (e : string)
| Parsed (doc : json_doc).

(** Outcome of [subprocess.run(..., check=True)]. *)
Inductive process_result :=
| CalledProcessError (e stderr : string)
| CompletedProcess (stdout : string)
| ProcessFault (e : string).

(** Return of the [ShellExecuteW] foreign call. *)
Inductive shell_result :=
| ShellReturned (ret : Z)
| ShellRaised (e : string).

Inductive event :=
| Print (text : string)
| Input (prompt : string)
| MessageBoxW (text caption : string) (utype : Z)
| ShellExecuteW (verb file params : string) (show : Z).

Inductive exn :=
| EOFError
| IndexError
| KeyError (key : string).

(** How a call of the selector ends. *)
Inductive outcome :=
| Returned (selected_guids : list string)
| Raised (e : exn).

Global Instance event_eq_dec : EqDecision event.
Proof. solve_decision. Defined.
Global Instance exn_eq_dec : EqDecision exn.
Proof. solve_decision. Defined.
Global Instance outcome_eq_dec : EqDecision outcome.
Proof. solve_decision. Defined.

(** ** Configuration *)

Definition TARGET_PS_SCRIPT_NAME : string := "GamingNetworkOptimization.ps1".

(** [0x10 | 0x0]: the error icon with an OK button. *)
Definition MB_ICONERROR_OK : Z := Z.lor 16 0.

(** ** Adapter enumerator *)

Definition enumeration_alert (error_msg : string) : list event :=
  [Print error_msg; MessageBoxW error_msg "Adapter Enumeration Error" MB_ICONERROR_OK].

Definition get_network_adapters_from_powershell
    (run : process_result) (json_loads : string → json_result)
  : option (list AdapterRecord) * list event :=
  let fetching := Print "Fetching available network adapters..." in
  match run with
  | CompletedProcess adapters_json =>
      match json_loads adapters_json with
      | Parsed (JsonDict adapters_data) => (Some [adapters_data], [fetching])
      | Parsed (JsonList adapters_data) => (Some adapters_data, [fetching])
      | Parsed JsonNull => (None, [fetching])
      | JSONDecodeError e =>
          (None,
           fetching :: enumeration_alert
             ("Error decoding JSON from PowerShell adapter list: " ++ e ++ nl
              ++ "Raw output: " ++ adapters_json))
      end
  | CalledProcessError e stderr =>
      (None,
       fetching :: enumeration_alert
         ("Error getting network adapters from PowerShell: " ++ e ++ nl
          ++ "Stderr: " ++ stderr))
  | ProcessFault e =>
      (None,
       fetching :: enumeration_alert
         ("An unexpected error occurred while getting adapters: " ++ e))
  end.

(** ** Interactive selector *)

(** Lines 56-66: the numbered listing and the static guidance. *)
Definition listing_line (i : nat) (adapter : AdapterRecord) : event :=
  let name := dict_get adapter "Name" "N/A" in
  let desc := dict_get adapter "InterfaceDescription" "N/A" in
  let guid := dict_get adapter "InterfaceGuid" "N/A" in
  Print ("  " ++ pretty (i + 1)%nat ++ ": " ++ name ++ " - " ++ desc
         ++ " (GUID: " ++ guid ++ ")").

Definition listing (adapters : list AdapterRecord) : list event :=
  ([Print (nl ++ "Available Network Adapters (select for interface-specific tweaks):")]
   ++ imap listing_line adapters
   ++ [Print (nl ++ "--- Adapter Selection ---");
      Print "You can apply interface-specific TCP tweaks (like disabling Nagle, immediate ACKs) to one or more adapters.";
      Print "It's generally recommended for your primary physical gaming adapters (Ethernet, Wi-Fi).";
      Print "It's generally NOT recommended for virtual adapters (like VPNs, e.g., WireSock) unless you're sure."])%list.

(** Lines 71-74. *)
Definition prompt_message (selected_guids : list string) : string :=
  match selected_guids with
  | [] =>
      nl ++ "Enter the number of the adapter you want to apply interface-specific tweaks to (or type 'skip' to not apply to any specific interface): "
  | _ =>
      nl ++ "Selected GUIDs: " ++ py_join ", " selected_guids ++ nl
      ++ "Enter the number of another adapter, or type 'done' if finished: "
  end.

Definition add_more_prompt : string :=
  "  Do you want to add another adapter? (yes/no): ".

Definition added_notice (name chosen_guid : string) : event :=
  Print ("  Added: '" ++ name ++ "' - " ++ chosen_guid).

Definition already_selected_notice (name : string) : event :=
  Print ("  Adapter '" ++ name ++ "' already selected.").

Definition all_selected_notice : event :=
  Print "All available adapters with GUIDs have been selected.".

Definition skip_notice : event :=
  Print "Skipping interface-specific tweaks for all adapters.".

Definition nothing_selected_notice : event :=
  Print "No specific adapters selected for interface-specific tweaks.".

Definition invalid_selection_notice (adapters : list AdapterRecord) : event :=
  Print ("  Invalid selection. Please enter a number between 1 and "
         ++ pretty (length adapters) ++ ".").

Definition invalid_input_notice : event :=
  Print "  Invalid input. Please enter a number, 'skip', or 'done'.".

(** The loop blocks at one of its two [input] calls, or has left the
    function. *)
Inductive loop_state :=
| AtPrompt (selected_guids : list string)
| AtAddMore (selected_guids : list string)
| Stopped (o : outcome).

(** Lines 76-109: from the line read at the main prompt up to the next
    [input] call or the exit of the function. *)
Definition on_choice (adapters : list AdapterRecord) (selected_guids : list string)
    (line : string) : loop_state * list event :=
  let choice_str := py_lower (py_strip line) in
  if decide (choice_str = "done") then
    match selected_guids with
    | [] => (Stopped (Returned []), [nothing_selected_notice])
    | _ => (Stopped (Returned selected_guids), [])
    end
  else if decide (choice_str = "skip") then
    (Stopped (Returned []), [skip_notice])
  else
    match py_int choice_str with
    | None => (AtPrompt selected_guids, [invalid_input_notice])
    | Some choice_num =>
        if decide (1 ≤ choice_num ≤ Z.of_nat (length adapters))%Z then
          match adapters !! Z.to_nat (choice_num - 1) with
          | None => (Stopped (Raised IndexError), [])
          | Some chosen_adapter =>
              match chosen_adapter !! "InterfaceGuid" with
              | None => (Stopped (Raised (KeyError "InterfaceGuid")), [])
              | Some chosen_guid =>
                  match chosen_adapter !! "Name" with
                  | None => (Stopped (Raised (KeyError "Name")), [])
                  | Some name =>
                      let '(selected_guids, notice) :=
                        if decide (chosen_guid ∈ selected_guids)
                        then (selected_guids, already_selected_notice name)
                        else ((selected_guids ++ [chosen_guid])%list,
                              added_notice name chosen_guid) in
                      if decide (length selected_guids = length adapters) then
                        (Stopped (Returned selected_guids),
                         [notice; all_selected_notice])
                      else
                        match selected_guids with
                        | [] => (AtAddMore selected_guids, [notice])
                        | _ => (AtPrompt selected_guids, [notice])
                        end
                  end
              end
          end
        else (AtPrompt selected_guids, [invalid_selection_notice adapters])
    end.

(** Lines 103-105: the answer to the inline question. *)
Definition on_add_more (selected_guids : list string) (line : string)
  : loop_state * list event :=
  let add_more_choice := py_lower (py_strip line) in
  if decide (add_more_choice ∈ ["yes"; "y"]) then (AtPrompt selected_guids, [])
  else (Stopped (Returned selected_guids), []).

Definition step (adapters : list AdapterRecord) (st : loop_state) (line : string)
  : loop_state * list event :=
  match st with
  | AtPrompt selected_guids => on_choice adapters selected_guids line
  | AtAddMore selected_guids => on_add_more selected_guids line
  | Stopped o => (Stopped o, [])
  end.

Definition prompt_of (st : loop_state) : string :=
  match st with
  | AtPrompt selected_guids => prompt_message selected_guids
  | AtAddMore _ => add_more_prompt
  | Stopped _ => EmptyString
  end.

(** The [while True] loop run against the lines of standard input: the
    outcome, the lines left unread and the console trace. *)
Fixpoint selection_loop (adapters : list AdapterRecord) (st : loop_state)
    (stdin : list string) {struct stdin} : outcome * list string * list event :=
  match st with
  | Stopped o => (o, stdin, [])
  | _ =>
      match stdin with
      | [] => (Raised EOFError, [], [Input (prompt_of st)])
      | line :: rest =>
          let '(st', out) := step adapters st line in
          let '(o, unread, out') := selection_loop adapters st' rest in
          (o, unread, (Input (prompt_of st) :: out ++ out')%list)
      end
  end.

Definition select_guids_for_tweaks (adapters : list AdapterRecord)
    (stdin : list string) : outcome * list string * list event :=
  match adapters with
  | [] =>
      (Returned [], stdin,
       [Print "No network adapters with GUIDs were found or an error occurred."])
  | _ =>
      let '(o, unread, out) := selection_loop adapters (AtPrompt []) stdin in
      (o, unread, (listing adapters ++ out)%list)
  end.

(** The states the loop passes through while it reads [lines], without the
    console: used to speak of the loop at an arbitrary iteration. *)
Definition feed (adapters : list AdapterRecord) (st : loop_state)
    (lines : list string) : loop_state :=
  fold_left (λ st line, (step adapters st line).1) lines st.

Definition selection_of (st : loop_state) : list string :=
  match st with
  | AtPrompt selected_guids | AtAddMore selected_guids => selected_guids
  | Stopped (Returned selected_guids) => selected_guids
  | Stopped (Raised _) => []
  end.

(** ** Elevated launcher *)

(** What the run finds around it: the directory of the script, the two
    [os.path] functions, the outcome of the adapter query and how its output
    parses, the lines waiting on standard input, and what the elevation call
    answers. *)
Record host := {
  current_script_dir : string;
  os_path_join : string → string → string;
  os_path_exists : string → bool;
  powershell_query : process_result;
  json_loads : string → json_result;
  stdin_lines : list string;
  shell32_ShellExecuteW : string → string → string → Z → shell_result;
}.

Inductive run_result :=
| RunReturned
| RunRaised (e : exn).

Definition executable_to_run : string := "powershell.exe".

(** Line 141. *)
Definition guids_csv_for_ps (selected_guids : list string) : string :=
  py_join "," selected_guids.

(** Line 151. *)
Definition script_parameters (target_ps_script_path : string)
    (selected_guids : list string) : string :=
  "-NoProfile -ExecutionPolicy Bypass -File " ++ dq ++ target_ps_script_path ++ dq
  ++ " -TargetGuidsCsv " ++ dq ++ guids_csv_for_ps selected_guids ++ dq.

Definition script_not_found_message (current_script_dir : string) : string :=
  "Error: The target PowerShell script '" ++ TARGET_PS_SCRIPT_NAME ++ "' was not found." ++ nl
  ++ "Looked in directory: '" ++ current_script_dir ++ "'" ++ nl ++ nl
  ++ "Please ensure '" ++ TARGET_PS_SCRIPT_NAME ++ "' is in the same folder as this Python script.".

Definition out_of_resources_text : string :=
  "The operating system is out of memory or resources.".
Definition file_not_found_text : string :=
  "File not found (powershell.exe or script path issue).".
Definition path_not_found_text : string := "Path not found.".
Definition access_denied_text : string :=
  "Access denied (UAC prompt possibly denied or other permission issue).".
Definition canceled_text : string :=
  "The operation was canceled by the user (UAC prompt denied or closed).".
Definition generic_text : string :=
  "Refer to ShellExecuteW documentation for other error codes.".

(** Lines 161-166: the [if]/[elif] chain on the return code. *)
Definition error_cause (ret : Z) : string :=
  if decide (ret = 0)%Z then out_of_resources_text
  else if decide (ret = 2)%Z then file_not_found_text
  else if decide (ret = 3)%Z then path_not_found_text
  else if decide (ret = 5)%Z then access_denied_text
  else if decide (ret = 1223)%Z then canceled_text
  else generic_text.

Definition error_message (ret : Z) : string :=
  "ShellExecuteW failed to start the script. Error code: " ++ pretty ret ++ nl ++ nl
  ++ error_cause ret.

Definition success_message : string :=
  "Successfully requested to run '" ++ TARGET_PS_SCRIPT_NAME ++ "' as administrator." ++ nl
  ++ "If UAC is enabled, a prompt should appear." ++ nl
  ++ "The PowerShell script will run in a new window.".

(** Lines 158-176: what the launcher reports for a return code. *)
Definition launch_report (ret : Z) : list event :=
  if decide (ret ≤ 32)%Z then
    [MessageBoxW (error_message ret) "Launch Error" MB_ICONERROR_OK;
     Print (error_message ret)]
  else [Print success_message].

Definition exception_report (e : string) : list event :=
  let exception_message :=
    "An exception occurred while trying to use ShellExecuteW: " ++ e in
  [MessageBoxW exception_message "Python Script Exception" MB_ICONERROR_OK;
   Print exception_message].

(** Lines 143-181: the hand-off, once the selector has returned. *)
Definition launch (h : host) (target_ps_script_path : string)
    (selected_guids : list string) : list event :=
  let params := script_parameters target_ps_script_path selected_guids in
  ([Print (nl ++ "Attempting to run '" ++ target_ps_script_path ++ "' as administrator...");
    match selected_guids with
    | [] => Print "No specific interface GUIDs selected; interface-specific tweaks section in PowerShell script will be skipped."
    | _ => Print ("Interface-specific tweaks will be attempted for GUID(s): "
                  ++ guids_csv_for_ps selected_guids)
    end;
    ShellExecuteW "runas" executable_to_run params 1]
   ++ match shell32_ShellExecuteW h "runas" executable_to_run params 1 with
      | ShellReturned ret => launch_report ret
      | ShellRaised e => exception_report e
      end)%list.

Definition run_script (h : host) : run_result * list event :=
  let target_ps_script_path :=
    os_path_join h (current_script_dir h) TARGET_PS_SCRIPT_NAME in
  if os_path_exists h target_ps_script_path then
    let '(adapters, out_enum) :=
      get_network_adapters_from_powershell (powershell_query h) (json_loads h) in
    match adapters with
    | None =>
        (RunReturned,
         (out_enum ++ [Print "Could not retrieve adapter list. Aborting launch of optimization script."])%list)
    | Some adapters =>
        let '(o, _, out_sel) := select_guids_for_tweaks adapters (stdin_lines h) in
        match o with
        | Raised e => (RunRaised e, (out_enum ++ out_sel)%list)
        | Returned selected_guids =>
            (RunReturned,
             (out_enum ++ out_sel ++ launch h target_ps_script_path selected_guids)%list)
        end
    end
  else
    (RunReturned,
     [MessageBoxW (script_not_found_message (current_script_dir h)) "Script Not Found"
        MB_ICONERROR_OK;
      Print (script_not_found_message (current_script_dir h))]).

Definition is_input (e : event) : bool :=
  match e with Input _ => true | _ => false end.

Definition is_elevation (e : event) : bool :=
  match e with ShellExecuteW _ _ _ _ => true | _ => false end.

(** ** Sample data *)

Definition adapter (name desc guid : string) : AdapterRecord :=
  <["Name" := name]> (<["InterfaceDescription" := desc]> (<["InterfaceGuid" := guid]> ∅)).

Definition eth : AdapterRecord := adapter "Ethernet" "Intel I225-V" "GUID-A".
Definition wifi : AdapterRecord := adapter "Wi-Fi" "Intel AX200" "GUID-B".
Definition vpn : AdapterRecord := adapter "WireSock" "Virtual adapter" "GUID-C".

(** A record the serializer stripped of its identifier. *)
Definition nameless_guid : AdapterRecord :=
  <["Name" := "Loopback"]> (<["InterfaceDescription" := "Software loopback"]> ∅).

(** ** Vocabulary of the properties *)

(** The text the loop compares and converts: [input(...).strip().lower()]. *)
Definition choice_of (line : string) : string := py_lower (py_strip line).

(** Strings of decimal digits. *)
Fixpoint digits_only (s : string) : Prop :=
  match s with
  | EmptyString => True
  | String c t => is_Some (digit_value c) ∧ digits_only t
  end.

(** [line] is the 1-based number of the adapter at position [i]. *)
Definition selects (adapters : list AdapterRecord) (line : string) (i : nat) : Prop :=
  py_int (choice_of line) = Some (Z.of_nat (S i)) ∧ i < length adapters.

(** The identifier a line picks, when the line is the number of an adapter
    that carries one. *)
Definition chosen_guid_of (adapters : list AdapterRecord) (line : string)
  : option string :=
  choice_num ← py_int (choice_of line);
  if decide (1 ≤ choice_num ≤ Z.of_nat (length adapters))%Z
  then adapters !! Z.to_nat (choice_num - 1) ≫= (.!! "InterfaceGuid")
  else None.

(** Appending unless present. *)
Definition add_guid (selected_guids : list string) (guid : string) : list string :=
  if decide (guid ∈ selected_guids) then selected_guids
  else (selected_guids ++ [guid])%list.

(** The identifiers of a sequence of picks, each at its first pick. *)
Definition in_selection_order (picked : list string) : list string :=
  fold_left add_guid picked [].

(** The identifiers of the records that have one, in list order. *)
Definition guids_of (adapters : list AdapterRecord) : list string :=
  omap (.!! "InterfaceGuid") adapters.

(** A record with the two fields the selection reads. *)
Definition well_formed (adapter : AdapterRecord) : Prop :=
  is_Some (adapter !! "InterfaceGuid") ∧ is_Some (adapter !! "Name").

(** The identifiers separated by single commas, nothing before the first and
    nothing after the last. *)
Inductive comma_joined : list string → string → Prop :=
| comma_joined_none : comma_joined [] EmptyString
| comma_joined_one guid : comma_joined [guid] guid
| comma_joined_more guid guids csv :
    guids ≠ [] → comma_joined guids csv →
    comma_joined (guid :: guids) (guid ++ "," ++ csv).

(** What the state reached after reading [lines] holds: the picks so far, each
    once, in the order of their first pick; a stopped loop keeps what it
    had when it stopped, or nothing. *)
Definition history_of (adapters : list AdapterRecord) (lines : list string)
    (st : loop_state) : Prop :=
  match st with
  | AtPrompt selected_guids =>
      selected_guids = in_selection_order (omap (chosen_guid_of adapters) lines)
  | AtAddMore _ => False
  | Stopped (Returned selected_guids) =>
      ∃ consumed, consumed `prefix_of` lines
        ∧ selected_guids = in_selection_order (omap (chosen_guid_of adapters) consumed)
  | Stopped (Raised _) => True
  end.

(** Duplicate-free, and made of identifiers of the listed adapters. *)
Definition selection_ok (adapters : list AdapterRecord)
    (selected_guids : list string) : Prop :=
  NoDup selected_guids
  ∧ Forall (λ guid, ∃ adapter, adapter ∈ adapters
                      ∧ adapter !! "InterfaceGuid" = Some guid) selected_guids.

Definition running (st : loop_state) : Prop :=
  match st with Stopped _ => False | _ => True end.

Global Instance running_dec (st : loop_state) : Decision (running st).
Proof. destruct st; simpl; apply _. Defined.

Definition target_path (h : host) : string :=
  os_path_join h (current_script_dir h) TARGET_PS_SCRIPT_NAME.

Definition enumerated (h : host) : option (list AdapterRecord) :=
  (get_network_adapters_from_powershell (powershell_query h) (json_loads h)).1.

(** The enumerator's "no data": the sentinel or an empty list. *)
Definition no_data (adapters : option (list AdapterRecord)) : Prop :=
  adapters = None ∨ adapters = Some [].

(** Neither prompt nor elevation call in the trace of the run. *)
Definition run_aborted (h : host) : Prop :=
  existsb is_input (run_script h).2 = false
  ∧ existsb is_elevation (run_script h).2 = false.

(** ** Sample hosts *)

Definition sample_dir : string := "C:\Tools".

Definition sample_join (dir name : string) : string := dir ++ "\" ++ name.

(** The compact JSON text of an adapter object. *)
Definition json_field (key value : string) : string :=
  dq ++ key ++ dq ++ ":" ++ dq ++ value ++ dq.

Definition json_adapter (name desc guid : string) : string :=
  "{" ++ json_field "Name" name ++ "," ++ json_field "InterfaceDescription" desc
  ++ "," ++ json_field "InterfaceGuid" guid ++ "}".

Definition eth_json : string := json_adapter "Ethernet" "Intel I225-V" "GUID-A".
Definition wifi_json : string := json_adapter "Wi-Fi" "Intel AX200" "GUID-B".

(** A stand-in for [json.loads], defined on the three outputs used below. *)
Definition sample_json_loads (text : string) : json_result :=
  if decide (text = "[]") then Parsed (JsonList [])
  else if decide (text = eth_json) then Parsed (JsonDict eth)
  else if decide (text = "[" ++ eth_json ++ "," ++ wifi_json ++ "]")
  then Parsed (JsonList [eth; wifi])
  else JSONDecodeError "Expecting value: line 1 column 1 (char 0)".

Definition sample_host (query : process_result) (lines : list string) : host := {|
  current_script_dir := sample_dir;
  os_path_join := sample_join;
  os_path_exists := λ _, true;
  powershell_query := query;
  json_loads := sample_json_loads;
  stdin_lines := lines;
  shell32_ShellExecuteW := λ _ _ _ _, ShellReturned 42;
|}.

(** The query's output is an empty JSON array. *)
Definition empty_host : host := sample_host (CompletedProcess "[]") [].

(** The query exits with an error. *)
Definition failing_host : host :=
  sample_host (CalledProcessError "Command returned non-zero exit status 1." "Get-NetAdapter : Access denied") [].

Definition two_adapter_host : host :=
  sample_host (CompletedProcess ("[" ++ eth_json ++ "," ++ wifi_json ++ "]")) ["1"; "2"].

Definition one_adapter_host : host :=
  sample_host (CompletedProcess eth_json) ["1"].

(** ** Further vocabulary *)

(** A line the loop answers with one of its two "invalid" notices. *)
Definition invalid_line (adapters : list AdapterRecord) (line : string) : Prop :=
  choice_of line ≠ "done" ∧ choice_of line ≠ "skip"
  ∧ match py_int (choice_of line) with
    | None => True
    | Some choice_num => ¬ (1 ≤ choice_num ≤ Z.of_nat (length adapters))%Z
    end.

(** Every record has an identifier and no two records share one. *)
Definition distinct_guids (adapters : list AdapterRecord) : Prop :=
  NoDup (guids_of adapters) ∧ length (guids_of adapters) = length adapters.

(** ** The text helpers on the two control words and on numbers *)

Lemma py_int_not_done (s : string) (n : Z) : py_int s = Some n → s ≠ "done".
Proof. intros H ->. discriminate H. Qed.

Lemma py_int_not_skip (s : string) (n : Z) : py_int s = Some n → s ≠ "skip".
Proof. intros H ->. discriminate H. Qed.

Lemma digit_char_plain (c : ascii) :
  is_Some (digit_value c) →
  is_space c = false ∧ lower_ascii c = c ∧ Ascii.eqb c "_"%char = false
  ∧ c ≠ "+"%char ∧ c ≠ "-"%char.
Proof.
  destruct c as [[] [] [] [] [] [] [] []]; vm_compute; intros [d Hd];
    try discriminate Hd; by split_and!.
Qed.

Lemma py_int_unsigned (c : ascii) (t : string) :
  c ≠ "+"%char → c ≠ "-"%char →
  py_int (String c t) = parse_digits 0 false (String c t).
Proof.
  intros Hplus Hminus.
  destruct c as [[] [] [] [] [] [] [] []]; try reflexivity; by exfalso.
Qed.

Lemma digits_only_strip_lower (s : string) :
  digits_only s → py_lower (py_strip s) = s.
Proof.
  intros Hs.
  assert (py_lstrip s = s) as Hl.
  { destruct s as [|c t]; [done|]. destruct Hs as [Hc _].
    apply digit_char_plain in Hc as (Hsp & _). simpl. by rewrite Hsp. }
  assert (py_rstrip s = s) as Hr.
  { induction s as [|c t IH]; [done|]. destruct Hs as [Hc Ht].
    apply digit_char_plain in Hc as (Hsp & _).
    assert (py_lstrip t = t) as Hlt.
    { destruct t as [|c' t']; [done|]. destruct Ht as [Hc' _].
      apply digit_char_plain in Hc' as (Hsp' & _). simpl. by rewrite Hsp'. }
    simpl. rewrite (IH Ht Hlt), Hsp. by destruct t. }
  unfold py_strip. rewrite Hl, Hr. clear Hl Hr.
  induction s as [|c t IH]; [done|]. destruct Hs as [Hc Ht].
  apply digit_char_plain in Hc as (_ & Hlow & _).
  simpl. by rewrite Hlow, IH.
Qed.

Lemma digit_value_pretty_N_char (d : N) :
  (d < 10)%N → digit_value (pretty_N_char d) = Some (Z.of_N d).
Proof.
  intros Hd.
  assert (d = 0 ∨ d = 1 ∨ d = 2 ∨ d = 3 ∨ d = 4 ∨ d = 5 ∨ d = 6 ∨ d = 7
          ∨ d = 8 ∨ d = 9)%N as Hcases by lia.
  by destruct_or!; subst d.
Qed.

Lemma parse_digits_digit (acc : Z) (seen : bool) (d : N) (s : string) :
  (d < 10)%N →
  parse_digits acc seen (String (pretty_N_char d) s)
  = parse_digits (10 * acc + Z.of_N d) true s.
Proof.
  intros Hd. pose proof (digit_value_pretty_N_char d Hd) as Hv.
  destruct (digit_char_plain (pretty_N_char d)) as (_ & _ & Hus & _); [by eexists|].
  simpl. by rewrite Hus, Hv.
Qed.

(** Reading back what [str] printed: the digits of [x], most significant
    first, in front of [s]. *)
Lemma parse_digits_pretty_N_go (x : N) :
  (0 < x)%N →
  ∃ p : Z, ∀ acc seen s,
    parse_digits acc seen (pretty_N_go x s) = parse_digits (acc * p + Z.of_N x) true s.
Proof.
  induction (N.lt_wf_0 x) as [x _ IH]. intros Hpos.
  assert (x `mod` 10 < 10)%N as Hmod by (apply N.mod_lt; lia).
  destruct (decide (x `div` 10 = 0)%N) as [Hsmall|Hbig].
  - exists 10%Z. intros acc seen s.
    rewrite pretty_N_go_step, Hsmall, pretty_N_go_0 by done.
    rewrite parse_digits_digit by done.
    f_equal. apply N.div_small_iff in Hsmall; [|done].
    rewrite N.mod_small by done. lia.
  - destruct (IH (x `div` 10)%N) as [p Hp].
    { apply N.div_lt; lia. }
    { by apply N.neq_0_lt_0. }
    exists (10 * p)%Z. intros acc seen s.
    rewrite pretty_N_go_step, Hp, parse_digits_digit by done.
    f_equal. pose proof (N.div_mod x 10). lia.
Qed.

Lemma digits_only_pretty_N_go (x : N) (s : string) :
  digits_only s → digits_only (pretty_N_go x s).
Proof.
  revert s. induction (N.lt_wf_0 x) as [x _ IH]. intros s Hs.
  destruct (decide (0 < x)%N) as [Hpos|Hzero].
  - rewrite pretty_N_go_step by done. apply IH; [apply N.div_lt; lia|].
    split; [|done]. rewrite digit_value_pretty_N_char; [by eexists|].
    apply N.mod_lt. lia.
  - assert (x = 0%N) as -> by lia. by rewrite pretty_N_go_0.
Qed.

Lemma pretty_N_go_not_empty (x : N) (s : string) :
  (0 < x)%N → pretty_N_go x s ≠ EmptyString.
Proof.
  revert s. induction (N.lt_wf_0 x) as [x _ IH]. intros s Hpos.
  rewrite pretty_N_go_step by done.
  destruct (decide (0 < x `div` 10)%N) as [Hbig|Hsmall].
  - apply IH; [apply N.div_lt; lia|done].
  - assert (x `div` 10 = 0)%N as ->.
    { destruct (N.eq_0_gt_0_cases (x `div` 10)) as [?|?]; done. }
    by rewrite pretty_N_go_0.
Qed.

(** [int(str(n).strip().lower()) == n] for the numbers of the listing. *)
Lemma py_int_pretty (n : nat) :
  py_int (py_lower (py_strip (pretty (S n)))) = Some (Z.of_nat (S n)).
Proof.
  unfold pretty, pretty_nat, pretty, pretty_N.
  rewrite decide_False by lia.
  assert (0 < N.of_nat (S n))%N as Hpos by lia.
  rewrite digits_only_strip_lower by by apply digits_only_pretty_N_go.
  destruct (parse_digits_pretty_N_go _ Hpos) as [p Hp].
  pose proof (digits_only_pretty_N_go (N.of_nat (S n)) EmptyString I) as Hdig.
  pose proof (pretty_N_go_not_empty (N.of_nat (S n)) EmptyString Hpos) as Hne.
  destruct (pretty_N_go (N.of_nat (S n)) EmptyString) as [|c t] eqn:Hstr; [done|].
  destruct Hdig as [Hc _]. apply digit_char_plain in Hc as (_ & _ & _ & Hplus & Hminus).
  rewrite py_int_unsigned by done. rewrite <-Hstr, Hp. simpl; f_equal; lia.
Qed.

(** ** One pass through the loop body *)

Section Body.
Context (adapters : list AdapterRecord).
Implicit Types (selected_guids : list string) (line : string).

Lemma add_guid_not_nil selected_guids guid : add_guid selected_guids guid ≠ [].
Proof.
  unfold add_guid. case_decide as Hin.
  - intros ->. by apply not_elem_of_nil in Hin.
  - by destruct selected_guids.
Qed.

Lemma on_choice_done selected_guids line :
  choice_of line = "done" →
  on_choice adapters selected_guids line =
    match selected_guids with
    | [] => (Stopped (Returned []), [nothing_selected_notice])
    | _ => (Stopped (Returned selected_guids), [])
    end.
Proof. unfold on_choice, choice_of. intros ->. by rewrite decide_True. Qed.

Lemma on_choice_skip selected_guids line :
  choice_of line = "skip" →
  on_choice adapters selected_guids line = (Stopped (Returned []), [skip_notice]).
Proof. unfold on_choice, choice_of. intros ->. by rewrite decide_False, decide_True. Qed.

(** The successful-selection branch, for a record with both fields: the
    inline question of lines 102-105 is never reached, because the
    selection tested there has just received an element or already held
    the chosen one. *)
Lemma on_choice_pick selected_guids line i chosen_adapter chosen_guid name :
  selects adapters line i →
  adapters !! i = Some chosen_adapter →
  chosen_adapter !! "InterfaceGuid" = Some chosen_guid →
  chosen_adapter !! "Name" = Some name →
  on_choice adapters selected_guids line =
    let notice :=
      if decide (chosen_guid ∈ selected_guids) then already_selected_notice name
      else added_notice name chosen_guid in
    if decide (length (add_guid selected_guids chosen_guid) = length adapters)
    then (Stopped (Returned (add_guid selected_guids chosen_guid)),
          [notice; all_selected_notice])
    else (AtPrompt (add_guid selected_guids chosen_guid), [notice]).
Proof.
  intros [Hint Hlt] Hi Hguid Hname. unfold on_choice. fold (choice_of line).
  rewrite decide_False by eauto using py_int_not_done.
  rewrite decide_False by eauto using py_int_not_skip.
  rewrite Hint. rewrite decide_True by lia.
  replace (Z.to_nat (Z.of_nat (S i) - 1)) with i by lia.
  rewrite Hi, Hguid, Hname.
  pose proof (add_guid_not_nil selected_guids chosen_guid) as Hne.
  unfold add_guid in *. simpl.
  destruct (decide (chosen_guid ∈ selected_guids)); simpl;
    case_decide; try done.
  - by destruct selected_guids.
  - by destruct (selected_guids ++ [chosen_guid])%list.
Qed.

Lemma chosen_guid_of_control line :
  choice_of line = "done" ∨ choice_of line = "skip" →
  chosen_guid_of adapters line = None.
Proof. unfold chosen_guid_of. by intros [-> | ->]. Qed.

(** Where one pass can lead, told by what the line picks. *)
Lemma on_choice_cases selected_guids line :
  match chosen_guid_of adapters line with
  | Some guid =>
      ((on_choice adapters selected_guids line).1 = AtPrompt (add_guid selected_guids guid)
       ∧ length (add_guid selected_guids guid) ≠ length adapters)
      ∨ ((on_choice adapters selected_guids line).1
           = Stopped (Returned (add_guid selected_guids guid))
         ∧ length (add_guid selected_guids guid) = length adapters)
      ∨ (on_choice adapters selected_guids line).1 = Stopped (Raised (KeyError "Name"))
  | None =>
      (on_choice adapters selected_guids line).1 = AtPrompt selected_guids
      ∨ ((on_choice adapters selected_guids line).1 = Stopped (Returned selected_guids)
         ∧ choice_of line = "done")
      ∨ (on_choice adapters selected_guids line).1 = Stopped (Returned [])
      ∨ ∃ e, (on_choice adapters selected_guids line).1 = Stopped (Raised e)
  end.
Proof.
  destruct (decide (choice_of line = "done")) as [Hdone|Hdone].
  { rewrite chosen_guid_of_control, on_choice_done by auto.
    destruct selected_guids; simpl; auto. }
  destruct (decide (choice_of line = "skip")) as [Hskip|Hskip].
  { rewrite chosen_guid_of_control, on_choice_skip by auto. simpl; auto. }
  unfold on_choice, chosen_guid_of. fold (choice_of line).
  rewrite !decide_False by done.
  destruct (py_int (choice_of line)) as [choice_num|]; simpl; [|auto].
  case_decide; simpl; [|auto].
  destruct (adapters !! Z.to_nat (choice_num - 1)) as [chosen_adapter|];
    simpl; [|eauto 6].
  destruct (chosen_adapter !! "InterfaceGuid") as [chosen_guid|]; simpl; [|eauto 6].
  destruct (chosen_adapter !! "Name") as [name|]; simpl; [|auto].
  pose proof (add_guid_not_nil selected_guids chosen_guid) as Hne.
  unfold add_guid in *.
  destruct (decide (chosen_guid ∈ selected_guids)); simpl;
    case_decide; simpl; auto.
  - destruct selected_guids; [done|]. auto.
  - destruct (selected_guids ++ [chosen_guid])%list; [done|]. auto.
Qed.

Lemma chosen_guid_of_adapter line guid :
  chosen_guid_of adapters line = Some guid →
  ∃ adapter, adapter ∈ adapters ∧ adapter !! "InterfaceGuid" = Some guid.
Proof.
  unfold chosen_guid_of.
  destruct (py_int (choice_of line)) as [choice_num|]; simpl; [|done].
  case_decide; [|done].
  destruct (adapters !! Z.to_nat (choice_num - 1)) as [adapter|] eqn:Hi;
    simpl; [|done].
  intros Hguid. exists adapter. split; [|done].
  by eapply list_elem_of_lookup_2.
Qed.

Lemma selects_chosen_guid line i adapter guid :
  selects adapters line i →
  adapters !! i = Some adapter →
  adapter !! "InterfaceGuid" = Some guid →
  chosen_guid_of adapters line = Some guid.
Proof.
  intros [Hint Hlt] Hi Hguid. unfold chosen_guid_of. rewrite Hint. simpl.
  rewrite decide_True by lia.
  replace (Z.to_nat (Z.of_nat (S i) - 1)) with i by lia.
  by rewrite Hi.
Qed.

End Body.

(** ** Picks in selection order *)

Lemma fold_add_guid_NoDup (picked selected_guids : list string) :
  NoDup selected_guids → NoDup (fold_left add_guid picked selected_guids).
Proof.
  revert selected_guids.
  induction picked as [|guid picked IH]; intros selected_guids Hnd; [done|].
  simpl. apply IH. unfold add_guid. case_decide; [done|].
  apply NoDup_app. split_and!; [done| |apply NoDup_singleton].
  intros x Hx ->%list_elem_of_singleton. done.
Qed.

Lemma elem_of_fold_add_guid (picked selected_guids : list string) (x : string) :
  x ∈ fold_left add_guid picked selected_guids ↔ x ∈ selected_guids ∨ x ∈ picked.
Proof.
  revert selected_guids.
  induction picked as [|guid picked IH]; intros selected_guids; simpl.
  { rewrite elem_of_nil. tauto. }
  rewrite IH, elem_of_cons. unfold add_guid. case_decide.
  - split; [tauto|]. intros [?|[->|?]]; auto.
  - rewrite elem_of_app, list_elem_of_singleton. tauto.
Qed.

Lemma in_selection_order_snoc (picked : list string) (guid : string) :
  in_selection_order (picked ++ [guid]) = add_guid (in_selection_order picked) guid.
Proof. unfold in_selection_order. by rewrite fold_left_app. Qed.

Lemma in_selection_order_ok (adapters : list AdapterRecord) (lines : list string) :
  selection_ok adapters (in_selection_order (omap (chosen_guid_of adapters) lines)).
Proof.
  split.
  - apply fold_add_guid_NoDup, NoDup_nil_2.
  - apply Forall_forall. intros guid [[]%elem_of_nil|Hin]%elem_of_fold_add_guid.
    apply list_elem_of_omap in Hin as (line & _ & Hline).
    by eapply chosen_guid_of_adapter.
Qed.

(** ** The loop over the lines read *)

Section Loop.
Context (adapters : list AdapterRecord).
Implicit Types (st : loop_state) (lines stdin : list string).

Lemma feed_snoc st lines line :
  feed adapters st (lines ++ [line]) = (step adapters (feed adapters st lines) line).1.
Proof. unfold feed. by rewrite fold_left_app. Qed.

Lemma feed_cons st lines line :
  feed adapters st (line :: lines) = feed adapters (step adapters st line).1 lines.
Proof. done. Qed.

Lemma feed_app st lines1 lines2 :
  feed adapters st (lines1 ++ lines2) = feed adapters (feed adapters st lines1) lines2.
Proof. unfold feed. by rewrite fold_left_app. Qed.

Lemma feed_stopped o lines : feed adapters (Stopped o) lines = Stopped o.
Proof. induction lines as [|line lines IH]; [done|]. by rewrite feed_cons. Qed.

Lemma feed_running st lines : running (feed adapters st lines) → running st.
Proof. destruct st; [done..|]. by rewrite feed_stopped. Qed.

(** The selection at every iteration, and the value returned. *)
Lemma feed_history lines :
  history_of adapters lines (feed adapters (AtPrompt []) lines).
Proof.
  induction lines as [|line lines IH] using rev_ind; [done|].
  rewrite feed_snoc.
  destruct (feed adapters (AtPrompt []) lines) as [selected_guids| |[selected_guids|e]];
    simpl in *; [|done| |done].
  - pose proof (on_choice_cases adapters selected_guids line) as Hcases.
    assert (omap (chosen_guid_of adapters) (lines ++ [line])%list
            = (omap (chosen_guid_of adapters) lines
               ++ option_list (chosen_guid_of adapters line))%list) as Hsnoc.
    { rewrite omap_app. simpl. by destruct (chosen_guid_of adapters line). }
    destruct (chosen_guid_of adapters line) as [guid|] eqn:Hpick; simpl in Hsnoc.
    + destruct Hcases as [[-> _]|[[-> _]| ->]]; simpl; [| |done].
      * by rewrite Hsnoc, in_selection_order_snoc, IH.
      * exists (lines ++ [line])%list. split; [done|].
        by rewrite Hsnoc, in_selection_order_snoc, IH.
    + rewrite app_nil_r in Hsnoc.
      destruct Hcases as [->|[[-> _]|[->|[e ->]]]]; simpl; [by rewrite Hsnoc| | |done].
      * exists lines. split; [by apply prefix_app_r|done].
      * exists []. split; [apply prefix_nil|done].
  - destruct IH as (consumed & Hpre & ->).
    exists consumed. split; [by apply prefix_app_r|done].
Qed.

(** The inline question is never asked. *)
Lemma feed_never_asks lines selected_guids :
  feed adapters (AtPrompt []) lines ≠ AtAddMore selected_guids.
Proof.
  intros Hst. pose proof (feed_history lines) as Hh. by rewrite Hst in Hh.
Qed.

(** While the loop runs, some adapter is still unselected by count. *)
Lemma feed_not_full lines selected_guids :
  adapters ≠ [] →
  feed adapters (AtPrompt []) lines = AtPrompt selected_guids →
  length selected_guids ≠ length adapters.
Proof.
  intros Hne. revert selected_guids.
  induction lines as [|line lines IH] using rev_ind; intros selected_guids.
  { intros [= <-]. by destruct adapters. }
  rewrite feed_snoc.
  destruct (feed adapters (AtPrompt []) lines) as [sel| |o] eqn:Hst; simpl.
  - pose proof (on_choice_cases adapters sel line) as Hcases.
    specialize (IH sel eq_refl).
    destruct (chosen_guid_of adapters line) as [guid|].
    + destruct Hcases as [[-> ?]|[[-> _]| ->]]; intros [= <-]; done.
    + destruct Hcases as [->|[[-> _]|[->|[e ->]]]]; intros [= <-]; done.
  - by apply feed_never_asks in Hst.
  - done.
Qed.

(** Running the loop on [lines ++ rest] when [lines] does not stop it. *)
Lemma selection_loop_app lines st :
  running (feed adapters st lines) →
  ∃ out, ∀ rest,
    selection_loop adapters st (lines ++ rest) =
      (let '(o, unread, out') :=
         selection_loop adapters (feed adapters st lines) rest in
       (o, unread, (out ++ out')%list)).
Proof.
  revert st. induction lines as [|line lines IH]; intros st Hrun.
  { exists []. intros rest. simpl.
    by destruct (selection_loop adapters st rest) as [[??]?]. }
  rewrite feed_cons in Hrun.
  destruct (IH _ Hrun) as [out Hout].
  assert (running st) as Hrun'.
  { apply feed_running in Hrun. by destruct st. }
  exists (Input (prompt_of st) :: (step adapters st line).2 ++ out)%list.
  intros rest. rewrite feed_cons. simpl.
  destruct (step adapters st line) as [st' out1] eqn:Hstep. simpl in *.
  rewrite Hout.
  destruct (selection_loop adapters (feed adapters st' lines) rest) as [[o unread] out'].
  destruct st; [| |done]; by rewrite <-app_assoc.
Qed.

(** A call that ends otherwise than at the end of input stopped after a
    prefix of the lines. *)
Lemma selection_loop_stopped stdin st o unread out :
  selection_loop adapters st stdin = (o, unread, out) →
  o = Raised EOFError
  ∨ ∃ consumed, stdin = (consumed ++ unread)%list
      ∧ feed adapters st consumed = Stopped o.
Proof.
  revert st o unread out.
  induction stdin as [|line stdin IH]; intros st o unread out.
  { destruct st; simpl; intros [= <- <- <-]; auto.
    right. by exists []. }
  destruct (decide (running st)) as [Hrun|Hrun].
  - assert (selection_loop adapters st (line :: stdin) =
              (let '(st', out0) := step adapters st line in
               let '(o1, unread1, out1) := selection_loop adapters st' stdin in
               (o1, unread1, (Input (prompt_of st) :: out0 ++ out1)%list))) as ->
      by (by destruct st).
    destruct (step adapters st line) as [st' out0] eqn:Hstep.
    destruct (selection_loop adapters st' stdin) as [[o1 unread1] out1] eqn:Hloop.
    intros [= <- <- <-].
    destruct (IH _ _ _ _ Hloop) as [->|(consumed & -> & Hfeed)]; [by left|right].
    exists (line :: consumed). split; [done|].
    by rewrite feed_cons, Hstep.
  - destruct st as [sel|sel|o']; [by destruct Hrun..|].
    simpl. intros [= <- <- <-]. right. by exists [].
Qed.

End Loop.

Lemma selection_loop_cons (adapters : list AdapterRecord) (st : loop_state)
    (line : string) (stdin : list string) :
  running st →
  selection_loop adapters st (line :: stdin) =
    (let '(st', out0) := step adapters st line in
     let '(o, unread, out1) := selection_loop adapters st' stdin in
     (o, unread, (Input (prompt_of st) :: out0 ++ out1)%list)).
Proof. by destruct st. Qed.

Lemma selection_loop_halted (adapters : list AdapterRecord) (o : outcome)
    (stdin : list string) :
  selection_loop adapters (Stopped o) stdin = (o, stdin, []).
Proof. by destruct stdin. Qed.

(** ** Return codes of the elevation call *)

Lemma launch_report_failure (ret : Z) :
  (ret ≤ 32)%Z →
  launch_report ret =
    [MessageBoxW (error_message ret) "Launch Error" 16; Print (error_message ret)].
Proof. intros Hle. unfold launch_report. by rewrite decide_True. Qed.

Lemma launch_report_success (ret : Z) :
  (32 < ret)%Z → launch_report ret = [Print success_message].
Proof. intros Hgt. unfold launch_report. rewrite decide_False; [done|lia]. Qed.

Lemma error_cause_access_denied : error_cause 5 = access_denied_text.
Proof. reflexivity. Qed.

Lemma error_cause_file_not_found : error_cause 2 = file_not_found_text.
Proof. reflexivity. Qed.

Lemma error_cause_generic (ret : Z) :
  (0 < ret ≤ 32)%Z → ret ≠ 2%Z → ret ≠ 3%Z → ret ≠ 5%Z →
  error_cause ret = generic_text.
Proof.
  intros Hrange H2 H3 H5. unfold error_cause.
  repeat (rewrite decide_False; [|lia]). done.
Qed.

(** No code that reaches the failure report is given the cancellation text. *)
Lemma canceled_text_never_reported (ret : Z) :
  (ret ≤ 32)%Z → error_cause ret ≠ canceled_text.
Proof.
  intros Hle. unfold error_cause.
  repeat case_decide; try done. lia.
Qed.

(** C1: the launcher's classification of the elevation call's return value.
    The chain of tests has an arm that reports 1223 as cancelled by the
    user, but it sits under the test [ret <= 32]: on 1223 the launcher prints
    the success message and raises no alert, and no return value is ever
    reported with the cancellation text.  (5, 2, the other values of (0,32]
    and the values above 32 are classified as stated:
    [error_cause_access_denied], [error_cause_file_not_found],
    [error_cause_generic], [launch_report_success].) *)
Theorem launch_report_canceled_code :
  launch_report 1223 = [Print success_message]
  ∧ error_cause 1223 = canceled_text
  ∧ launch_report 5 =
      [MessageBoxW (error_message 5) "Launch Error" 16; Print (error_message 5)].
Proof. done. Qed.

(** ** The selector on the sample adapters *)

(** C2: after the first successful selection the code asks no inline
    question.  With three adapters and the lines 1, no, 2, done the answer
    "no" is read at the main prompt as an invalid input, the second adapter
    is then added, and the call returns two identifiers instead of one; the
    inline prompt does not occur in the trace. *)
Theorem first_selection_asks_nothing :
  (select_guids_for_tweaks [eth; wifi; vpn] ["1"; "no"; "2"; "done"]).1
    = (Returned ["GUID-A"; "GUID-B"], [])
  ∧ (Input add_more_prompt
       ∉ (select_guids_for_tweaks [eth; wifi; vpn] ["1"; "no"; "2"; "done"]).2)
  ∧ on_choice [eth; wifi; vpn] [] "1" = (AtPrompt ["GUID-A"], [added_notice "Ethernet" "GUID-A"]).
Proof.
  split_and!; [by vm_compute| |by vm_compute].
  apply (bool_decide_unpack _). by vm_compute.
Qed.

(** ** Enumerator *)

(** C8: a response that parses to one bare record yields the one-element
    list holding that record, a response that parses to a collection yields
    the collection itself, and neither raises an alert. *)
Theorem single_record_is_wrapped (loads : string → json_result)
    (stdout : string) (doc : json_doc) :
  loads stdout = Parsed doc →
  get_network_adapters_from_powershell (CompletedProcess stdout) loads =
    (match doc with
     | JsonDict record => Some [record]
     | JsonList collection => Some collection
     | JsonNull => None
     end,
     [Print "Fetching available network adapters..."]).
Proof.
  intros Hparse. unfold get_network_adapters_from_powershell.
  rewrite Hparse. by destruct doc.
Qed.

Lemma single_record_is_wrapped_witness :
  get_network_adapters_from_powershell (CompletedProcess eth_json) sample_json_loads
  = (Some [eth], [Print "Fetching available network adapters..."]).
Proof.
  apply (single_record_is_wrapped sample_json_loads eth_json (JsonDict eth)).
  reflexivity.
Defined.

(** ** Control words and repeated picks at an arbitrary iteration *)

Lemma select_guids_for_tweaks_loop (adapters : list AdapterRecord)
    (stdin : list string) :
  adapters ≠ [] →
  select_guids_for_tweaks adapters stdin =
    (let '(o, unread, out) := selection_loop adapters (AtPrompt []) stdin in
     (o, unread, (listing adapters ++ out)%list)).
Proof. by destruct adapters. Qed.

Lemma feed_at_prompt (adapters : list AdapterRecord) (lines : list string) :
  running (feed adapters (AtPrompt []) lines) →
  ∃ selected_guids, feed adapters (AtPrompt []) lines = AtPrompt selected_guids.
Proof.
  intros Hrun.
  destruct (feed adapters (AtPrompt []) lines) as [sel|sel|o] eqn:Hst.
  - by exists sel.
  - by apply feed_never_asks in Hst.
  - done.
Qed.

(** C7: at whatever iteration the loop stands after the lines read so far,
    a line that reads "skip" makes the call return the empty selection at
    once: the pass ends the loop with no identifier, whatever had been
    appended, and the lines after it stay unread.  (With no adapter at all
    the loop is not entered and the call returns the empty selection
    anyway.) *)
Theorem skip_discards_selection (adapters : list AdapterRecord)
    (lines : list string) (line : string) (rest : list string) :
  running (feed adapters (AtPrompt []) lines) →
  choice_of line = "skip" →
  step adapters (feed adapters (AtPrompt []) lines) line
    = (Stopped (Returned []), [skip_notice])
  ∧ (select_guids_for_tweaks adapters (lines ++ line :: rest)).1.1 = Returned []
  ∧ (adapters = []
     ∨ ∃ out, select_guids_for_tweaks adapters (lines ++ line :: rest)
                = (Returned [], rest, (out ++ [skip_notice])%list)).
Proof.
  intros Hrun Hskip.
  destruct (feed_at_prompt adapters lines Hrun) as [selected_guids Hst].
  assert (step adapters (feed adapters (AtPrompt []) lines) line
          = (Stopped (Returned []), [skip_notice])) as Hstep.
  { rewrite Hst. simpl. by apply on_choice_skip. }
  destruct (decide (adapters = [])) as [->|Hne]; [by auto|].
  destruct (selection_loop_app adapters lines (AtPrompt []) Hrun) as [out Hout].
  assert (select_guids_for_tweaks adapters (lines ++ line :: rest)
          = (Returned [], rest,
             ((listing adapters ++ out ++ [Input (prompt_message selected_guids)])
              ++ [skip_notice])%list)) as Hsel.
  { rewrite select_guids_for_tweaks_loop, Hout by done.
    rewrite selection_loop_cons by done. rewrite Hstep, selection_loop_halted.
    rewrite Hst. cbn [prompt_of]. by rewrite <-!app_assoc. }
  split_and!; [done|by rewrite Hsel|right; eauto].
Qed.

Lemma skip_discards_selection_witness :
  step [eth; wifi] (feed [eth; wifi] (AtPrompt []) ["1"]) " Skip "
    = (Stopped (Returned []), [skip_notice])
  ∧ (select_guids_for_tweaks [eth; wifi] (["1"] ++ " Skip " :: ["2"])).1.1 = Returned []
  ∧ ([eth; wifi] = []
     ∨ ∃ out, select_guids_for_tweaks [eth; wifi] (["1"] ++ " Skip " :: ["2"])
                = (Returned [], ["2"], (out ++ [skip_notice])%list)).
Proof.
  apply (skip_discards_selection [eth; wifi] ["1"] " Skip " ["2"]).
  - vm_compute. exact I.
  - reflexivity.
Defined.

(** C6: entering the number of an adapter whose identifier the selection
    already holds leaves the selection as it was (same elements, same
    length), prints the "already selected" notice and goes back to the main
    prompt. *)
Theorem reselecting_is_a_no_op (adapters : list AdapterRecord)
    (lines selected_guids : list string) (line : string) (i : nat)
    (chosen_adapter : AdapterRecord) (chosen_guid name : string) :
  feed adapters (AtPrompt []) lines = AtPrompt selected_guids →
  selects adapters line i →
  adapters !! i = Some chosen_adapter →
  chosen_adapter !! "InterfaceGuid" = Some chosen_guid →
  chosen_adapter !! "Name" = Some name →
  chosen_guid ∈ selected_guids →
  step adapters (AtPrompt selected_guids) line
    = (AtPrompt selected_guids, [already_selected_notice name])
  ∧ feed adapters (AtPrompt []) (lines ++ [line]) = AtPrompt selected_guids.
Proof.
  intros Hst Hline Hi Hguid Hname Hin.
  assert (adapters ≠ []) as Hne by (intros ->; by rewrite lookup_nil in Hi).
  pose proof (feed_not_full adapters lines selected_guids Hne Hst) as Hlen.
  assert (step adapters (AtPrompt selected_guids) line
          = (AtPrompt selected_guids, [already_selected_notice name])) as Hstep.
  { simpl.
    rewrite (on_choice_pick adapters selected_guids line i chosen_adapter
               chosen_guid name) by done.
    simpl.
    unfold add_guid. destruct (decide (chosen_guid ∈ selected_guids)); [|done].
    by rewrite decide_False. }
  split; [done|]. by rewrite feed_snoc, Hst, Hstep.
Qed.

Lemma reselecting_is_a_no_op_witness :
  step [eth; wifi; vpn] (AtPrompt ["GUID-B"]) "2"
    = (AtPrompt ["GUID-B"], [already_selected_notice "Wi-Fi"])
  ∧ feed [eth; wifi; vpn] (AtPrompt []) (["2"] ++ ["2"]) = AtPrompt ["GUID-B"].
Proof.
  apply (reselecting_is_a_no_op [eth; wifi; vpn] ["2"] ["GUID-B"] "2" 1 wifi
           "GUID-B" "Wi-Fi"); try reflexivity.
  - split; [reflexivity|simpl; lia].
  - apply list_elem_of_singleton. reflexivity.
Defined.

(** C10: at every iteration, and in the value returned, the selection has no
    duplicate, each of its elements is the identifier of a listed adapter,
    and it consists of the identifiers picked by the lines read, each at the
    place of its first pick. *)
Theorem selection_invariant (adapters : list AdapterRecord) (lines : list string) :
  selection_ok adapters (selection_of (feed adapters (AtPrompt []) lines))
  ∧ history_of adapters lines (feed adapters (AtPrompt []) lines)
  ∧ match (select_guids_for_tweaks adapters lines).1.1 with
    | Returned selected_guids =>
        selection_ok adapters selected_guids
        ∧ ∃ consumed, consumed `prefix_of` lines
            ∧ selected_guids
                = in_selection_order (omap (chosen_guid_of adapters) consumed)
    | Raised _ => True
    end.
Proof.
  assert (∀ ls, selection_ok adapters (selection_of (feed adapters (AtPrompt []) ls)))
    as Hok.
  { intros ls. pose proof (feed_history adapters ls) as Hh.
    destruct (feed adapters (AtPrompt []) ls) as [sel|sel|[sel|e]]; simpl in *.
    - subst sel. apply in_selection_order_ok.
    - done.
    - destruct Hh as (consumed & _ & ->). apply in_selection_order_ok.
    - split; [apply NoDup_nil_2|apply Forall_nil_2]. }
  split_and!; [apply Hok|apply feed_history|].
  destruct adapters as [|adapter adapters'] eqn:Hadapters.
  { simpl. split; [split; [apply NoDup_nil_2|apply Forall_nil_2]|].
    exists []. split; [apply prefix_nil|done]. }
  rewrite <-Hadapters in *.
  rewrite select_guids_for_tweaks_loop by (by subst).
  destruct (selection_loop adapters (AtPrompt []) lines) as [[o unread] out] eqn:Hloop.
  simpl. destruct o as [selected_guids|e]; [|done].
  apply selection_loop_stopped in Hloop as [[=]|(consumed & -> & Hfeed)].
  pose proof (feed_history adapters consumed) as Hh.
  rewrite Hfeed in Hh. simpl in Hh. destruct Hh as (consumed' & Hpre & ->).
  split; [apply in_selection_order_ok|].
  exists consumed'. split; [|done].
  by apply prefix_app_r.
Qed.

(** ** Joining with commas *)

Lemma string_app_cons (c : ascii) (s t : string) :
  String c s ++ t = String c (s ++ t).
Proof. reflexivity. Qed.

Lemma string_app_nil_r (s : string) : s ++ EmptyString = s.
Proof.
  induction s as [|c s IH]; [done|]. by rewrite string_app_cons, IH.
Qed.

Lemma string_app_assoc (s1 s2 s3 : string) : (s1 ++ s2) ++ s3 = s1 ++ s2 ++ s3.
Proof.
  induction s1 as [|c s1 IH]; [done|]. by rewrite !string_app_cons, IH.
Qed.

Lemma concat_empty_cons (x : string) (l : list string) :
  String.concat EmptyString (x :: l) = x ++ String.concat EmptyString l.
Proof.
  destruct l as [|y l]; [symmetry; apply string_app_nil_r|reflexivity].
Qed.

Lemma py_join_cons (sep x y : string) (l : list string) :
  py_join sep (x :: y :: l) = x ++ sep ++ py_join sep (y :: l).
Proof.
  unfold py_join. rewrite map_cons, concat_empty_cons.
  by rewrite string_app_assoc.
Qed.

Lemma py_join_singleton (sep x : string) : py_join sep [x] = x.
Proof. apply string_app_nil_r. Qed.

Lemma comma_joined_csv (selected_guids : list string) :
  comma_joined selected_guids (guids_csv_for_ps selected_guids).
Proof.
  unfold guids_csv_for_ps.
  induction selected_guids as [|x [|y l] IH].
  - constructor.
  - rewrite py_join_singleton. constructor.
  - rewrite py_join_cons. by constructor.
Qed.

Lemma comma_joined_unique (selected_guids : list string) (csv : string) :
  comma_joined selected_guids csv → csv = guids_csv_for_ps selected_guids.
Proof.
  unfold guids_csv_for_ps. induction 1 as [|guid|guid guids csv Hne _ IH].
  - done.
  - by rewrite py_join_singleton.
  - destruct guids as [|y l]; [done|]. by rewrite py_join_cons, IH.
Qed.

(** ** Where the elevation call and the prompts occur in a trace *)

Lemma filter_elevation_none (out : list event) :
  Forall (λ e, is_elevation e = false) out → List.filter is_elevation out = [].
Proof.
  induction 1 as [|e out He _ IH]; [done|]. simpl. by rewrite He.
Qed.

Lemma enumerator_quiet (run : process_result) (loads : string → json_result) :
  existsb is_input (get_network_adapters_from_powershell run loads).2 = false
  ∧ Forall (λ e, is_elevation e = false)
      (get_network_adapters_from_powershell run loads).2.
Proof.
  unfold get_network_adapters_from_powershell, enumeration_alert.
  destruct run as [e stderr|stdout|e]; [| |by repeat constructor].
  - by repeat constructor.
  - destruct (loads stdout) as [e|[|d|l]]; by repeat constructor.
Qed.

Lemma imap_console {A} (f : nat → A → event) (l : list A) :
  (∀ i x, is_elevation (f i x) = false) →
  Forall (λ e, is_elevation e = false) (imap f l).
Proof.
  revert f. induction l as [|x l IH]; intros f Hf; [constructor|].
  simpl. constructor; [done|]. apply IH. intros i y. apply Hf.
Qed.

Lemma listing_console (adapters : list AdapterRecord) :
  Forall (λ e, is_elevation e = false) (listing adapters).
Proof.
  unfold listing. repeat apply Forall_app_2.
  - by repeat constructor.
  - by apply imap_console.
  - by repeat constructor.
Qed.

Lemma step_console (adapters : list AdapterRecord) (st : loop_state) (line : string) :
  Forall (λ e, is_elevation e = false) (step adapters st line).2.
Proof.
  destruct st as [sel|sel|o]; simpl; [| |constructor].
  - unfold on_choice.
    repeat (case_decide || case_match || simpl); simplify_eq;
      by repeat constructor.
  - unfold on_add_more. case_decide; constructor.
Qed.

Lemma selection_loop_console (adapters : list AdapterRecord) (stdin : list string)
    (st : loop_state) :
  Forall (λ e, is_elevation e = false) (selection_loop adapters st stdin).2.
Proof.
  revert st. induction stdin as [|line stdin IH]; intros st.
  { destruct st; simpl; by repeat constructor. }
  destruct (decide (running st)) as [Hrun|Hrun].
  - rewrite selection_loop_cons by done.
    pose proof (step_console adapters st line) as Hstep.
    destruct (step adapters st line) as [st' out0].
    specialize (IH st').
    destruct (selection_loop adapters st' stdin) as [[o unread] out1].
    simpl in *. constructor; [done|]. by apply Forall_app_2.
  - destruct st; [by destruct Hrun..|]. constructor.
Qed.

Lemma select_guids_for_tweaks_console (adapters : list AdapterRecord)
    (stdin : list string) :
  Forall (λ e, is_elevation e = false) (select_guids_for_tweaks adapters stdin).2.
Proof.
  destruct adapters as [|adapter adapters']; [by repeat constructor|].
  rewrite select_guids_for_tweaks_loop by done.
  pose proof (selection_loop_console (adapter :: adapters') stdin (AtPrompt [])) as Hloop.
  destruct (selection_loop (adapter :: adapters') (AtPrompt []) stdin) as [[o unread] out].
  cbn [snd] in *. apply Forall_app_2; [apply listing_console|done].
Qed.

Lemma launch_report_console (ret : Z) :
  existsb is_input (launch_report ret) = false
  ∧ Forall (λ e, is_elevation e = false) (launch_report ret).
Proof. unfold launch_report. case_decide; by repeat constructor. Qed.

(** The hand-off issues the elevation call once, and no prompt. *)
Lemma launch_events (h : host) (target_ps_script_path : string)
    (selected_guids : list string) :
  existsb is_input (launch h target_ps_script_path selected_guids) = false
  ∧ List.filter is_elevation (launch h target_ps_script_path selected_guids)
    = [ShellExecuteW "runas" executable_to_run
         (script_parameters target_ps_script_path selected_guids) 1].
Proof.
  unfold launch.
  set (report := match shell32_ShellExecuteW h _ _ _ _ with
                 | ShellReturned ret => launch_report ret
                 | ShellRaised e => exception_report e
                 end).
  assert (existsb is_input report = false
          ∧ Forall (λ e, is_elevation e = false) report) as [Hin Hel].
  { subst report. destruct (shell32_ShellExecuteW h _ _ _ _) as [ret|e].
    - apply launch_report_console.
    - by repeat constructor. }
  split.
  - rewrite existsb_app, Hin. by destruct selected_guids.
  - rewrite List.filter_app, (filter_elevation_none report) by done.
    by destruct selected_guids.
Qed.

(** The run, once the companion script has been found. *)
Lemma run_script_found (h : host) :
  os_path_exists h (target_path h) = true →
  run_script h =
    (let '(adapters, out_enum) :=
       get_network_adapters_from_powershell (powershell_query h) (json_loads h) in
     match adapters with
     | None =>
         (RunReturned,
          (out_enum ++ [Print "Could not retrieve adapter list. Aborting launch of optimization script."])%list)
     | Some adapters =>
         let '(o, _, out_sel) := select_guids_for_tweaks adapters (stdin_lines h) in
         match o with
         | Raised e => (RunRaised e, (out_enum ++ out_sel)%list)
         | Returned selected_guids =>
             (RunReturned,
              (out_enum ++ out_sel ++ launch h (target_path h) selected_guids)%list)
         end
     end).
Proof. unfold run_script, target_path. by intros ->. Qed.

(** ** The run as a whole *)

(** C3, as stated, fails: when the query's output is an empty array the
    enumerator returns the empty list, and the run goes on to the elevation
    call. *)
Lemma empty_enumeration_reaches_elevation :
  no_data (enumerated empty_host) ∧ ¬ run_aborted empty_host.
Proof.
  split; [by right|]. intros [_ Hel]. vm_compute in Hel. discriminate Hel.
Qed.

(** C3, amended: with the companion script in place and no data from the
    enumerator, no selection prompt is issued.  On the sentinel [None] the run
    returns without the elevation call; on an empty list the selector returns
    the empty selection and the elevation call is made with an empty
    identifier parameter. *)
Theorem run_script_on_no_data (h : host) :
  os_path_exists h (target_path h) = true →
  no_data (enumerated h) →
  existsb is_input (run_script h).2 = false
  ∧ (run_script h).1 = RunReturned
  ∧ List.filter is_elevation (run_script h).2 =
      match enumerated h with
      | None => []
      | Some _ =>
          [ShellExecuteW "runas" executable_to_run
             (script_parameters (target_path h) []) 1]
      end.
Proof.
  intros Hfound Hno. rewrite run_script_found by done.
  unfold enumerated in *.
  pose proof (enumerator_quiet (powershell_query h) (json_loads h)) as [Hin Hel].
  destruct (get_network_adapters_from_powershell (powershell_query h) (json_loads h))
    as [adapters out_enum].
  simpl in *. destruct Hno as [-> | ->].
  - simpl. split_and!; [|done|].
    + by rewrite existsb_app, Hin.
    + rewrite List.filter_app. by rewrite filter_elevation_none.
  - pose proof (launch_events h (target_path h) []) as [Hlin Hlel].
    cbn [select_guids_for_tweaks fst snd]. split_and!; [|done|].
    + rewrite !existsb_app, Hin, Hlin. done.
    + rewrite !List.filter_app, Hlel. by rewrite filter_elevation_none.
Qed.

Lemma run_script_on_no_data_witness :
  (existsb is_input (run_script failing_host).2 = false
   ∧ (run_script failing_host).1 = RunReturned
   ∧ List.filter is_elevation (run_script failing_host).2 = [])
  ∧ (existsb is_input (run_script empty_host).2 = false
     ∧ (run_script empty_host).1 = RunReturned
     ∧ List.filter is_elevation (run_script empty_host).2 =
         [ShellExecuteW "runas" executable_to_run
            (script_parameters (target_path empty_host) []) 1]).
Proof.
  split.
  - apply (run_script_on_no_data failing_host); [reflexivity|left; reflexivity].
  - apply (run_script_on_no_data empty_host); [reflexivity|right; reflexivity].
Defined.

(** C4: when the selector returns, the one elevation call of the run receives
    a parameter string whose [-TargetGuidsCsv] value is the selection joined
    in its order by single commas, with nothing after the last identifier:
    "GUID-A,GUID-B" for the two identifiers of the example and the empty
    string for the empty selection. *)
Theorem elevation_parameter_is_comma_joined (h : host)
    (adapters : list AdapterRecord) (selected_guids unread : list string)
    (out : list event) :
  os_path_exists h (target_path h) = true →
  enumerated h = Some adapters →
  select_guids_for_tweaks adapters (stdin_lines h) = (Returned selected_guids, unread, out) →
  comma_joined selected_guids (guids_csv_for_ps selected_guids)
  ∧ List.filter is_elevation (run_script h).2 =
      [ShellExecuteW "runas" "powershell.exe"
         ("-NoProfile -ExecutionPolicy Bypass -File " ++ dq ++ target_path h ++ dq
          ++ " -TargetGuidsCsv " ++ dq ++ guids_csv_for_ps selected_guids ++ dq) 1]
  ∧ guids_csv_for_ps ["GUID-A"; "GUID-B"] = "GUID-A,GUID-B"
  ∧ guids_csv_for_ps [] = EmptyString.
Proof.
  intros Hfound Henum Hsel. split_and!; [apply comma_joined_csv| |done..].
  rewrite run_script_found by done. unfold enumerated in Henum.
  pose proof (enumerator_quiet (powershell_query h) (json_loads h)) as [_ Hel].
  destruct (get_network_adapters_from_powershell (powershell_query h) (json_loads h))
    as [adapters' out_enum].
  simpl in Henum, Hel. subst adapters'.
  pose proof (select_guids_for_tweaks_console adapters (stdin_lines h)) as Hcon.
  rewrite Hsel in *. cbn [fst snd] in *.
  pose proof (launch_events h (target_path h) selected_guids) as [_ Hlel].
  rewrite !List.filter_app, Hlel.
  by rewrite !filter_elevation_none.
Qed.

Lemma elevation_parameter_is_comma_joined_witness :
  comma_joined ["GUID-A"; "GUID-B"] (guids_csv_for_ps ["GUID-A"; "GUID-B"])
  ∧ List.filter is_elevation (run_script two_adapter_host).2 =
      [ShellExecuteW "runas" "powershell.exe"
         ("-NoProfile -ExecutionPolicy Bypass -File " ++ dq
          ++ target_path two_adapter_host ++ dq
          ++ " -TargetGuidsCsv " ++ dq ++ guids_csv_for_ps ["GUID-A"; "GUID-B"] ++ dq) 1]
  ∧ guids_csv_for_ps ["GUID-A"; "GUID-B"] = "GUID-A,GUID-B"
  ∧ guids_csv_for_ps [] = EmptyString.
Proof.
  apply (elevation_parameter_is_comma_joined two_adapter_host [eth; wifi]
           ["GUID-A"; "GUID-B"] []
           (select_guids_for_tweaks [eth; wifi] ["1"; "2"]).2).
  - reflexivity.
  - reflexivity.
  - vm_compute. reflexivity.
Defined.

(** ** Selecting every adapter *)

Lemma guids_of_well_formed_length (l : list AdapterRecord) :
  Forall well_formed l → length (guids_of l) = length l.
Proof.
  unfold guids_of.
  induction 1 as [|adapter l [[guid Hguid] _] _ IH]; [done|].
  csimpl. rewrite Hguid. csimpl. by f_equal.
Qed.

Lemma chosen_guid_of_selects (adapters : list AdapterRecord) (line guid : string) :
  chosen_guid_of adapters line = Some guid →
  ∃ i chosen_adapter,
    selects adapters line i ∧ adapters !! i = Some chosen_adapter
    ∧ chosen_adapter !! "InterfaceGuid" = Some guid.
Proof.
  unfold chosen_guid_of, selects.
  destruct (py_int (choice_of line)) as [choice_num|]; simpl; [|done].
  case_decide as Hrange; [|done].
  destruct (adapters !! Z.to_nat (choice_num - 1)) as [chosen_adapter|] eqn:Hi;
    simpl; [|done].
  intros Hguid. exists (Z.to_nat (choice_num - 1)), chosen_adapter.
  split_and!; [f_equal; lia|lia|done..].
Qed.

Lemma chosen_guid_in_guids_of (adapters : list AdapterRecord) (line guid : string) :
  chosen_guid_of adapters line = Some guid → guid ∈ guids_of adapters.
Proof.
  intros (adapter & Hin & Hguid)%chosen_guid_of_adapter.
  apply list_elem_of_omap. eauto.
Qed.

Lemma fold_add_guid_absorb (picked selected_guids : list string) :
  picked ⊆ selected_guids → fold_left add_guid picked selected_guids = selected_guids.
Proof.
  revert selected_guids.
  induction picked as [|guid picked IH]; intros selected_guids Hsub; [done|].
  simpl. unfold add_guid at 2. rewrite decide_True by set_solver.
  apply IH. set_solver.
Qed.

Lemma add_guid_NoDup (selected_guids : list string) (guid : string) :
  NoDup selected_guids → NoDup (add_guid selected_guids guid).
Proof. intros Hnd. by apply (fold_add_guid_NoDup [guid]). Qed.

Lemma elem_of_add_guid (selected_guids : list string) (guid x : string) :
  x ∈ add_guid selected_guids guid ↔ x ∈ selected_guids ∨ x = guid.
Proof.
  rewrite <-(list_elem_of_singleton x guid).
  apply (elem_of_fold_add_guid [guid]).
Qed.

Section Covering.
Context (adapters : list AdapterRecord).
Hypothesis adapters_well_formed : Forall well_formed adapters.
Hypothesis guids_distinct : NoDup (guids_of adapters).

Lemma guids_of_length : length (guids_of adapters) = length adapters.
Proof using adapters_well_formed. by apply guids_of_well_formed_length. Qed.

(** A duplicate-free selection of listed identifiers that has the length of
    the list holds every identifier. *)
Lemma full_selection (selected_guids : list string) :
  NoDup selected_guids →
  selected_guids ⊆ guids_of adapters →
  length selected_guids = length adapters →
  selected_guids ≡ₚ guids_of adapters.
Proof using adapters_well_formed.
  intros Hnd Hsub Hlen.
  apply submseteq_length_Permutation.
  - by apply NoDup_submseteq.
  - rewrite guids_of_length. lia.
Qed.

(** From any iteration on: lines that each pick an adapter and together
    complete the selection end the loop by themselves. *)
Lemma selection_loop_covering (lines rest selected_guids : list string) :
  NoDup selected_guids →
  selected_guids ⊆ guids_of adapters →
  length selected_guids ≠ length adapters →
  Forall (λ line, is_Some (chosen_guid_of adapters line)) lines →
  guids_of adapters ⊆ (selected_guids ++ omap (chosen_guid_of adapters) lines)%list →
  ∃ unread out,
    selection_loop adapters (AtPrompt selected_guids) (lines ++ rest)
      = (Returned (fold_left add_guid (omap (chosen_guid_of adapters) lines)
                     selected_guids),
         unread, (out ++ [all_selected_notice])%list)
    ∧ rest `suffix_of` unread
    ∧ fold_left add_guid (omap (chosen_guid_of adapters) lines) selected_guids
        ≡ₚ guids_of adapters.
Proof using adapters_well_formed guids_distinct.
  revert selected_guids.
  induction lines as [|line lines IH]; intros selected_guids Hnd Hsub Hlen Hpick Hcover.
  { exfalso. apply Hlen. rewrite <-guids_of_length. simpl in Hcover.
    rewrite app_nil_r in Hcover.
    apply Nat.le_antisymm.
    - by apply submseteq_length, NoDup_submseteq.
    - by apply submseteq_length, NoDup_submseteq. }
  apply Forall_cons in Hpick as [[guid Hguid] Hpick].
  destruct (chosen_guid_of_selects _ _ _ Hguid) as (i & chosen_adapter & Hsel & Hi & Hig).
  assert (is_Some (chosen_adapter !! "Name")) as [name Hname].
  { eapply Forall_lookup_1 in adapters_well_formed as [_ ?]; done. }
  assert (omap (chosen_guid_of adapters) (line :: lines)
          = guid :: omap (chosen_guid_of adapters) lines) as Homap.
  { csimpl. by rewrite Hguid. }
  rewrite Homap in Hcover |- *. cbn [fold_left].
  rewrite <-app_comm_cons, selection_loop_cons by done. cbn [step].
  rewrite (on_choice_pick adapters selected_guids line i chosen_adapter guid name)
    by done.
  assert (NoDup (add_guid selected_guids guid)) as Hnd' by by apply add_guid_NoDup.
  assert (add_guid selected_guids guid ⊆ guids_of adapters) as Hsub'.
  { intros x [?| ->]%elem_of_add_guid; [by apply Hsub|].
    by eapply chosen_guid_in_guids_of. }
  cbn zeta. case_decide as Hfull.
  - pose proof (full_selection _ Hnd' Hsub' Hfull) as Hperm.
    assert (fold_left add_guid (omap (chosen_guid_of adapters) lines)
              (add_guid selected_guids guid) = add_guid selected_guids guid) as ->.
    { apply fold_add_guid_absorb. intros x Hx. rewrite Hperm.
      apply list_elem_of_omap in Hx as (l & _ & Hl).
      by eapply chosen_guid_in_guids_of. }
    rewrite selection_loop_halted.
    eexists (lines ++ rest)%list, [Input (prompt_message selected_guids); _].
    split_and!; [reflexivity|by apply suffix_app_r|done].
  - destruct (IH (add_guid selected_guids guid)) as (unread & out & Hloop & Hsuf & Hperm);
      [done..| |].
    { intros x Hx. apply Hcover in Hx.
      rewrite elem_of_app, elem_of_cons in Hx.
      rewrite elem_of_app, elem_of_add_guid. tauto. }
    rewrite Hloop.
    eexists unread, (Input (prompt_message selected_guids) :: _ :: out)%list.
    split_and!; [reflexivity|done..].
Qed.

End Covering.

(** C5: for a non-empty list of adapters with pairwise distinct identifiers,
    lines that each give the number of an adapter and together name every
    adapter end the loop by themselves (none of them is "done", and what
    follows them stays unread); the call returns every identifier of the
    list, each once, in the order of first selection. *)
Theorem selecting_all_terminates (adapters : list AdapterRecord)
    (lines rest : list string) :
  adapters ≠ [] →
  Forall well_formed adapters →
  NoDup (guids_of adapters) →
  Forall (λ line, is_Some (chosen_guid_of adapters line)) lines →
  guids_of adapters ⊆ omap (chosen_guid_of adapters) lines →
  ∃ unread out,
    select_guids_for_tweaks adapters (lines ++ rest)
      = (Returned (in_selection_order (omap (chosen_guid_of adapters) lines)),
         unread, (out ++ [all_selected_notice])%list)
    ∧ rest `suffix_of` unread
    ∧ in_selection_order (omap (chosen_guid_of adapters) lines) ≡ₚ guids_of adapters.
Proof.
  intros Hne Hwf Hnd Hpick Hcover.
  destruct (selection_loop_covering adapters Hwf Hnd lines rest [])
    as (unread & out & Hloop & Hsuf & Hperm).
  - apply NoDup_nil_2.
  - apply list_subseteq_nil.
  - by destruct adapters.
  - done.
  - done.
  - rewrite select_guids_for_tweaks_loop, Hloop by done.
    exists unread, (listing adapters ++ out)%list.
    by rewrite <-app_assoc.
Qed.

Lemma selecting_all_terminates_witness :
  ∃ unread out,
    select_guids_for_tweaks [eth; wifi; vpn] (["2"; "1"; " 2"; "3"] ++ ["done"])
      = (Returned (in_selection_order
                     (omap (chosen_guid_of [eth; wifi; vpn]) ["2"; "1"; " 2"; "3"])),
         unread, (out ++ [all_selected_notice])%list)
    ∧ ["done"] `suffix_of` unread
    ∧ in_selection_order (omap (chosen_guid_of [eth; wifi; vpn]) ["2"; "1"; " 2"; "3"])
        ≡ₚ guids_of [eth; wifi; vpn].
Proof.
  apply (selecting_all_terminates [eth; wifi; vpn] ["2"; "1"; " 2"; "3"] ["done"]).
  - discriminate.
  - repeat constructor; eexists; reflexivity.
  - apply (bool_decide_unpack _). vm_compute. exact I.
  - repeat constructor; eexists; reflexivity.
  - apply (bool_decide_unpack _). vm_compute. exact I.
Defined.

Example selecting_all_returns_in_selection_order :
  select_guids_for_tweaks [eth; wifi; vpn] ["2"; "1"; " 2"; "3"; "done"]
  = (Returned ["GUID-B"; "GUID-A"; "GUID-C"], ["done"],
     (select_guids_for_tweaks [eth; wifi; vpn] ["2"; "1"; " 2"; "3"; "done"]).2).
Proof. by vm_compute. Qed.

(** ** Records without an identifier *)

(** The number shown in the listing selects the adapter it is shown for. *)
Lemma selects_number (adapters : list AdapterRecord) (i : nat) :
  i < length adapters → selects adapters (pretty (S i)) i.
Proof. intros Hlt. split; [apply py_int_pretty|done]. Qed.

Lemma on_choice_missing_guid (adapters : list AdapterRecord)
    (selected_guids : list string) (line : string) (i : nat)
    (chosen_adapter : AdapterRecord) :
  selects adapters line i →
  adapters !! i = Some chosen_adapter →
  chosen_adapter !! "InterfaceGuid" = None →
  on_choice adapters selected_guids line
  = (Stopped (Raised (KeyError "InterfaceGuid")), []).
Proof.
  intros [Hint Hlt] Hi Hguid. unfold on_choice. fold (choice_of line).
  rewrite decide_False by eauto using py_int_not_done.
  rewrite decide_False by eauto using py_int_not_skip.
  rewrite Hint. rewrite decide_True by lia.
  replace (Z.to_nat (Z.of_nat (S i) - 1)) with i by lia.
  by rewrite Hi, Hguid.
Qed.

(** With both fields in every record, one pass never raises. *)
Lemma on_choice_well_formed (adapters : list AdapterRecord)
    (selected_guids : list string) (line : string) (e : exn) :
  Forall well_formed adapters →
  (on_choice adapters selected_guids line).1 ≠ Stopped (Raised e).
Proof.
  intros Hwf. unfold on_choice.
  destruct (decide (py_lower (py_strip line) = "done")); [by destruct selected_guids|].
  destruct (decide (py_lower (py_strip line) = "skip")); [done|].
  destruct (py_int (py_lower (py_strip line))) as [choice_num|]; [|done].
  case_decide as Hrange; [|done].
  destruct (adapters !! Z.to_nat (choice_num - 1)) as [chosen_adapter|] eqn:Hi.
  - eapply Forall_lookup_1 in Hwf as [[guid Hguid] [name Hname]]; [|done].
    rewrite Hguid, Hname.
    destruct (decide (guid ∈ selected_guids)); simpl;
      case_decide; simpl; try done; by case_match.
  - apply lookup_ge_None in Hi. lia.
Qed.

(** X6: when every record has both "InterfaceGuid" and "Name", the selector
    raises nothing but [EOFError] at the end of input: whatever is typed, no
    [KeyError] and no [IndexError] leaves the call. *)
Lemma well_formed_selection_total (adapters : list AdapterRecord)
    (stdin : list string) (e : exn) :
  Forall well_formed adapters →
  (select_guids_for_tweaks adapters stdin).1.1 = Raised e → e = EOFError.
Proof.
  intros Hwf. destruct adapters as [|adapter adapters'] eqn:Hadapters; [done|].
  rewrite <-Hadapters in *.
  rewrite select_guids_for_tweaks_loop by (by subst).
  destruct (selection_loop adapters (AtPrompt []) stdin) as [[o unread] out] eqn:Hloop.
  simpl. intros ->.
  apply selection_loop_stopped in Hloop as [[= ->]|(consumed & _ & Hfeed)]; [done|].
  exfalso. clear Hadapters. revert Hfeed.
  induction consumed as [|line consumed IH] using rev_ind; [done|].
  rewrite feed_snoc.
  destruct (feed adapters (AtPrompt []) consumed) as [sel|sel|o] eqn:Hst; simpl.
  - by apply on_choice_well_formed.
  - by apply feed_never_asks in Hst.
  - done.
Qed.

(** C9: the selection reads the identifier with [d["InterfaceGuid"]] and the
    loop catches [ValueError] only.  When a listed record has no such key,
    entering its number makes the call raise [KeyError]; the number printed
    for it in the listing is such an input, and the listing itself shows the
    record with the default "N/A". *)
Theorem missing_guid_raises (adapters : list AdapterRecord) (i : nat)
    (chosen_adapter : AdapterRecord) (line : string) (rest : list string) :
  adapters !! i = Some chosen_adapter →
  chosen_adapter !! "InterfaceGuid" = None →
  selects adapters line i →
  select_guids_for_tweaks adapters (line :: rest)
    = (Raised (KeyError "InterfaceGuid"), rest,
       (listing adapters ++ [Input (prompt_message [])])%list)
  ∧ (select_guids_for_tweaks adapters [pretty (S i)]).1.1
      = Raised (KeyError "InterfaceGuid")
  ∧ listing_line i chosen_adapter ∈ listing adapters
  ∧ dict_get chosen_adapter "InterfaceGuid" "N/A" = "N/A".
Proof.
  intros Hi Hguid Hline.
  assert (adapters ≠ []) as Hne by (intros ->; by rewrite lookup_nil in Hi).
  assert (∀ l stdin, selects adapters l i →
            select_guids_for_tweaks adapters (l :: stdin)
            = (Raised (KeyError "InterfaceGuid"), stdin,
               (listing adapters ++ [Input (prompt_message [])])%list)) as Hraise.
  { intros l stdin Hl.
    rewrite select_guids_for_tweaks_loop, selection_loop_cons by done.
    cbn [step]. rewrite (on_choice_missing_guid adapters [] l i chosen_adapter) by done.
    by rewrite selection_loop_halted. }
  split_and!.
  - by apply Hraise.
  - rewrite Hraise; [done|]. apply selects_number. by eapply lookup_lt_Some.
  - unfold listing. rewrite !elem_of_app. right; left.
    by apply elem_of_lookup_imap_2.
  - unfold dict_get. by rewrite Hguid.
Qed.

Lemma missing_guid_raises_witness :
  select_guids_for_tweaks [eth; nameless_guid] (" 2 " :: ["done"])
    = (Raised (KeyError "InterfaceGuid"), ["done"],
       (listing [eth; nameless_guid] ++ [Input (prompt_message [])])%list)
  ∧ (select_guids_for_tweaks [eth; nameless_guid] [pretty 2]).1.1
      = Raised (KeyError "InterfaceGuid")
  ∧ listing_line 1 nameless_guid ∈ listing [eth; nameless_guid]
  ∧ dict_get nameless_guid "InterfaceGuid" "N/A" = "N/A".
Proof.
  apply (missing_guid_raises [eth; nameless_guid] 1 nameless_guid " 2 " ["done"]).
  - reflexivity.
  - reflexivity.
  - split; [reflexivity|simpl; lia].
Defined.

(** ** A complete run *)

(** One adapter, returned by the query as a bare object: entering 1 selects
    it and ends the loop, and the launcher hands its identifier over. *)
Example single_adapter_run :
  enumerated one_adapter_host = Some [eth]
  ∧ (run_script one_adapter_host).1 = RunReturned
  ∧ List.filter is_elevation (run_script one_adapter_host).2 =
      [ShellExecuteW "runas" "powershell.exe"
         ("-NoProfile -ExecutionPolicy Bypass -File " ++ dq
          ++ "C:\Tools\GamingNetworkOptimization.ps1" ++ dq
          ++ " -TargetGuidsCsv " ++ dq ++ "GUID-A" ++ dq) 1].
Proof. by vm_compute. Qed.

(** ** The selector beyond the stated properties *)

Lemma selection_loop_outcome_app (adapters : list AdapterRecord)
    (lines rest : list string) (st : loop_state) :
  (selection_loop adapters st (lines ++ rest)).1.1
  = (selection_loop adapters (feed adapters st lines) rest).1.1.
Proof.
  revert st. induction lines as [|line lines IH]; intros st; [done|].
  destruct (decide (running st)) as [Hrun|Hrun].
  - rewrite <-app_comm_cons, selection_loop_cons, feed_cons by done.
    specialize (IH (step adapters st line).1).
    destruct (step adapters st line) as [st' out0]. cbn [fst] in *.
    destruct (selection_loop adapters st' (lines ++ rest)) as [[o unread] out1].
    exact IH.
  - destruct st as [sel|sel|o]; [by destruct Hrun..|].
    by rewrite feed_stopped, !selection_loop_halted.
Qed.

Lemma select_guids_for_tweaks_outcome (adapters : list AdapterRecord)
    (stdin : list string) :
  adapters ≠ [] →
  (select_guids_for_tweaks adapters stdin).1.1
  = (selection_loop adapters (AtPrompt []) stdin).1.1.
Proof.
  intros Hne. rewrite select_guids_for_tweaks_loop by done.
  by destruct (selection_loop adapters (AtPrompt []) stdin) as [[??]?].
Qed.

Lemma no_adapters_no_picks (lines : list string) :
  omap (chosen_guid_of []) lines = [].
Proof.
  induction lines as [|line lines IH]; [done|]. csimpl.
  assert (chosen_guid_of [] line = None) as ->; [|done].
  unfold chosen_guid_of. destruct (py_int (choice_of line)); simpl; [|done].
  rewrite decide_False; [done|simpl; lia].
Qed.

(** X1: at whatever iteration the loop stands, a line that reads "done"
    ends the call with the identifiers picked by the lines read so far, each
    once, in the order of first pick (the empty selection if none was
    picked); the lines after it stay unread. *)
Theorem done_returns_selection (adapters : list AdapterRecord)
    (lines : list string) (line : string) (rest : list string) :
  running (feed adapters (AtPrompt []) lines) →
  choice_of line = "done" →
  (select_guids_for_tweaks adapters (lines ++ line :: rest)).1.1
    = Returned (in_selection_order (omap (chosen_guid_of adapters) lines))
  ∧ (adapters = []
     ∨ (select_guids_for_tweaks adapters (lines ++ line :: rest)).1.2 = rest).
Proof.
  intros Hrun Hdone.
  destruct (decide (adapters = [])) as [->|Hne].
  { split; [|by left]. by rewrite no_adapters_no_picks. }
  destruct (feed_at_prompt adapters lines Hrun) as [selected_guids Hst].
  pose proof (feed_history adapters lines) as Hh. rewrite Hst in Hh. simpl in Hh.
  destruct (selection_loop_app adapters lines (AtPrompt []) Hrun) as [out Hout].
  rewrite select_guids_for_tweaks_loop, Hout, Hst by done.
  rewrite selection_loop_cons by done. cbn [step].
  rewrite on_choice_done by done. rewrite <-Hh.
  destruct selected_guids; rewrite selection_loop_halted; auto.
Qed.

Lemma done_returns_selection_witness :
  (select_guids_for_tweaks [eth; wifi; vpn] (["3"; "x"; "1"] ++ " DONE" :: ["2"])).1.1
    = Returned (in_selection_order
                  (omap (chosen_guid_of [eth; wifi; vpn]) ["3"; "x"; "1"]))
  ∧ ([eth; wifi; vpn] = []
     ∨ (select_guids_for_tweaks [eth; wifi; vpn]
          (["3"; "x"; "1"] ++ " DONE" :: ["2"])).1.2 = ["2"]).
Proof.
  apply (done_returns_selection [eth; wifi; vpn] ["3"; "x"; "1"] " DONE" ["2"]).
  - vm_compute. exact I.
  - reflexivity.
Defined.

Lemma on_choice_invalid (adapters : list AdapterRecord)
    (selected_guids : list string) (line : string) :
  invalid_line adapters line →
  (on_choice adapters selected_guids line).1 = AtPrompt selected_guids.
Proof.
  intros (Hdone & Hskip & Hnum). unfold on_choice. fold (choice_of line).
  rewrite !decide_False by done.
  destruct (py_int (choice_of line)) as [choice_num|]; [|done].
  by rewrite decide_False.
Qed.

(** X2: a line that is neither a control word nor the number of an adapter
    (not a number at all, or a number out of range) changes nothing: the
    call ends as it would without that line. *)
Theorem invalid_lines_are_ignored (adapters : list AdapterRecord)
    (lines : list string) (line : string) (rest : list string) :
  invalid_line adapters line →
  (select_guids_for_tweaks adapters (lines ++ line :: rest)).1.1
  = (select_guids_for_tweaks adapters (lines ++ rest)).1.1.
Proof.
  intros Hbad. destruct (decide (adapters = [])) as [->|Hne]; [done|].
  rewrite !select_guids_for_tweaks_outcome, !selection_loop_outcome_app by done.
  destruct (feed adapters (AtPrompt []) lines) as [sel|sel|o] eqn:Hst.
  - rewrite selection_loop_cons by done. cbn [step].
    pose proof (on_choice_invalid adapters sel line Hbad) as Hstep.
    destruct (on_choice adapters sel line) as [st' out0]. simpl in Hstep. subst st'.
    by destruct (selection_loop adapters (AtPrompt sel) rest) as [[??]?].
  - by apply feed_never_asks in Hst.
  - by rewrite !selection_loop_halted.
Qed.

Lemma invalid_lines_are_ignored_witness :
  (select_guids_for_tweaks [eth; wifi; vpn] (["1"] ++ "7" :: ["2"; "done"])).1.1
  = (select_guids_for_tweaks [eth; wifi; vpn] (["1"] ++ ["2"; "done"])).1.1.
Proof.
  apply (invalid_lines_are_ignored [eth; wifi; vpn] ["1"] "7" ["2"; "done"]).
  split_and!; [discriminate..|]. vm_compute. intros [_ Hle]. by apply Hle.
Defined.

Lemma on_choice_missing_name (adapters : list AdapterRecord)
    (selected_guids : list string) (line : string) (i : nat)
    (chosen_adapter : AdapterRecord) (chosen_guid : string) :
  selects adapters line i →
  adapters !! i = Some chosen_adapter →
  chosen_adapter !! "InterfaceGuid" = Some chosen_guid →
  chosen_adapter !! "Name" = None →
  on_choice adapters selected_guids line = (Stopped (Raised (KeyError "Name")), []).
Proof.
  intros [Hint Hlt] Hi Hguid Hname. unfold on_choice. fold (choice_of line).
  rewrite decide_False by eauto using py_int_not_done.
  rewrite decide_False by eauto using py_int_not_skip.
  rewrite Hint. rewrite decide_True by lia.
  replace (Z.to_nat (Z.of_nat (S i) - 1)) with i by lia.
  by rewrite Hi, Hguid, Hname.
Qed.

(** X3: the two notices of the selection read the adapter's name with
    [d["Name"]].  At any iteration, entering the number of a record that has
    an identifier but no "Name" key makes the call raise [KeyError], whether
    or not the identifier was already selected; the identifiers selected so
    far are lost, and the lines after it stay unread.  The listing shows the
    same record with the default "N/A". *)
Theorem missing_name_raises (adapters : list AdapterRecord)
    (lines : list string) (line : string) (rest : list string) (i : nat)
    (chosen_adapter : AdapterRecord) (chosen_guid : string) :
  running (feed adapters (AtPrompt []) lines) →
  selects adapters line i →
  adapters !! i = Some chosen_adapter →
  chosen_adapter !! "InterfaceGuid" = Some chosen_guid →
  chosen_adapter !! "Name" = None →
  (select_guids_for_tweaks adapters (lines ++ line :: rest)).1
    = (Raised (KeyError "Name"), rest)
  ∧ dict_get chosen_adapter "Name" "N/A" = "N/A".
Proof.
  intros Hrun Hline Hi Hguid Hname.
  assert (adapters ≠ []) as Hne by (intros ->; by rewrite lookup_nil in Hi).
  split; [|unfold dict_get; by rewrite Hname].
  destruct (feed_at_prompt adapters lines Hrun) as [selected_guids Hst].
  destruct (selection_loop_app adapters lines (AtPrompt []) Hrun) as [out Hout].
  rewrite select_guids_for_tweaks_loop, Hout, Hst by done.
  rewrite selection_loop_cons by done. cbn [step].
  rewrite (on_choice_missing_name adapters selected_guids line i chosen_adapter
             chosen_guid) by done.
  by rewrite selection_loop_halted.
Qed.

Lemma missing_name_raises_witness :
  (select_guids_for_tweaks [eth; <["InterfaceGuid" := "GUID-A"]> ∅]
     (["1"] ++ "2" :: ["done"])).1
    = (Raised (KeyError "Name"), ["done"])
  ∧ dict_get (<["InterfaceGuid" := "GUID-A"]> ∅) "Name" "N/A" = "N/A".
Proof.
  apply (missing_name_raises [eth; <["InterfaceGuid" := "GUID-A"]> ∅] ["1"] "2"
           ["done"] 1 (<["InterfaceGuid" := "GUID-A"]> ∅) "GUID-A").
  - vm_compute. exact I.
  - split; [reflexivity|simpl; lia].
  - reflexivity.
  - reflexivity.
  - reflexivity.
Defined.

(** ** When the loop ends by itself *)

Lemma guids_of_length_le (adapters : list AdapterRecord) :
  (length (guids_of adapters) ≤ length adapters)%nat.
Proof.
  unfold guids_of. induction adapters as [|adapter adapters IH]; [done|].
  csimpl. destruct (adapter !! "InterfaceGuid"); simpl; lia.
Qed.

Lemma selection_within (adapters : list AdapterRecord) (selected_guids : list string) :
  selection_ok adapters selected_guids →
  (length selected_guids ≤ length adapters)%nat
  ∧ (length selected_guids < length adapters
     ∨ (distinct_guids adapters ∧ selected_guids ≡ₚ guids_of adapters)).
Proof.
  intros [Hnd Hfrom].
  assert (selected_guids ⊆+ guids_of adapters) as Hsub.
  { apply NoDup_submseteq; [done|]. intros guid Hin.
    rewrite Forall_forall in Hfrom. destruct (Hfrom guid Hin) as (adapter & ? & ?).
    apply list_elem_of_omap. eauto. }
  pose proof (submseteq_length _ _ Hsub) as Hle.
  pose proof (guids_of_length_le adapters) as Hle'.
  split; [lia|].
  destruct (decide (length selected_guids < length adapters)) as [|Hfull]; [by left|].
  right.
  assert (selected_guids ≡ₚ guids_of adapters) as Hperm
    by (apply submseteq_length_Permutation; [done|lia]).
  split; [|done]. split; [by rewrite <-Hperm|lia].
Qed.

Lemma on_choice_returned (adapters : list AdapterRecord)
    (selected_guids returned : list string) (line : string) :
  choice_of line ≠ "done" → choice_of line ≠ "skip" →
  (on_choice adapters selected_guids line).1 = Stopped (Returned returned) →
  ∃ guid, chosen_guid_of adapters line = Some guid
    ∧ returned = add_guid selected_guids guid
    ∧ length returned = length adapters.
Proof.
  intros Hdone Hskip.
  pose proof (on_choice_cases adapters selected_guids line) as Hcases.
  unfold on_choice in *. fold (choice_of line) in *.
  rewrite !decide_False in * by done.
  destruct (chosen_guid_of adapters line) as [guid|] eqn:Hpick.
  - destruct Hcases as [[-> _]|[[-> Hlen]| ->]]; [done| |done].
    intros [= <-]. eauto.
  - unfold chosen_guid_of in Hpick.
    destruct (py_int (choice_of line)) as [choice_num|]; simpl in *; [|done].
    case_decide; [|done].
    destruct (adapters !! Z.to_nat (choice_num - 1)) as [chosen_adapter|];
      simpl in *; [|done].
    by rewrite Hpick.
Qed.

(** X4: the loop ends by itself only on a list whose adapters all have
    identifiers, pairwise distinct.  If a call returns right after a line
    that is neither "done" nor "skip", then every adapter has an identifier,
    no two share one, and the value returned holds them all; on any other
    list only "done" or "skip" make the call return. *)
Theorem automatic_end_needs_distinct_guids (adapters : list AdapterRecord)
    (lines : list string) (line : string) (rest selected_guids : list string) :
  running (feed adapters (AtPrompt []) lines) →
  choice_of line ≠ "done" → choice_of line ≠ "skip" →
  (select_guids_for_tweaks adapters (lines ++ line :: rest)).1
    = (Returned selected_guids, rest) →
  distinct_guids adapters ∧ selected_guids ≡ₚ guids_of adapters.
Proof.
  intros Hrun Hdone Hskip Hret.
  destruct (decide (adapters = [])) as [->|Hne].
  { simpl in Hret. injection Hret as <- Hunread.
    apply (f_equal length) in Hunread. rewrite length_app in Hunread.
    simpl in Hunread. lia. }
  destruct (feed_at_prompt adapters lines Hrun) as [sel0 Hst].
  destruct (selection_loop_app adapters lines (AtPrompt []) Hrun) as [out Hout].
  rewrite select_guids_for_tweaks_loop, Hout, Hst in Hret by done.
  rewrite selection_loop_cons in Hret by done. cbn [step] in Hret.
  pose proof (on_choice_returned adapters sel0 selected_guids line Hdone Hskip)
    as Hstop.
  destruct (on_choice adapters sel0 line) as [st' out0]. simpl in Hstop.
  destruct (selection_loop adapters st' rest) as [[o unread] out1] eqn:Hloop.
  simpl in Hret. injection Hret as -> ->.
  apply selection_loop_stopped in Hloop as [[=]|(consumed & Hrest & Hfeed)].
  assert (consumed = []) as ->.
  { apply (f_equal length) in Hrest. rewrite length_app in Hrest.
    destruct consumed; [done|simpl in Hrest; lia]. }
  simpl in Hfeed. subst st'.
  destruct (Hstop eq_refl) as (guid & Hpick & -> & Hlen).
  assert (selection_ok adapters (add_guid sel0 guid)) as Hok.
  { pose proof (feed_history adapters lines) as Hh. rewrite Hst in Hh. simpl in Hh.
    subst sel0. rewrite <-in_selection_order_snoc.
    replace (omap (chosen_guid_of adapters) lines ++ [guid])%list
      with (omap (chosen_guid_of adapters) (lines ++ [line])%list).
    - apply in_selection_order_ok.
    - rewrite omap_app. csimpl. by rewrite Hpick. }
  destruct (selection_within adapters _ Hok) as [_ [Hlt|?]]; [lia|done].
Qed.

Lemma automatic_end_needs_distinct_guids_witness :
  distinct_guids [eth; wifi] ∧ ["GUID-B"; "GUID-A"] ≡ₚ guids_of [eth; wifi].
Proof.
  apply (automatic_end_needs_distinct_guids [eth; wifi] ["2"] "1" ["done"]
           ["GUID-B"; "GUID-A"]).
  - vm_compute. exact I.
  - discriminate.
  - discriminate.
  - vm_compute. reflexivity.
Defined.

(** ** The run: when it elevates and when it raises *)

Lemma run_script_not_found (h : host) :
  os_path_exists h (target_path h) = false →
  run_script h =
    (RunReturned,
     [MessageBoxW (script_not_found_message (current_script_dir h)) "Script Not Found"
        MB_ICONERROR_OK;
      Print (script_not_found_message (current_script_dir h))]).
Proof. unfold run_script, target_path. by intros ->. Qed.

(** X5: a run makes the elevation call at most once, and makes it exactly
    when the companion script exists, the enumerator returned a list and the
    selector returned; the call then carries the selector's value.  The run
    raises exactly when the selector raises, with the selector's exception: a
    missing script, a failed enumeration, a failing return code and an
    exception of the elevation call itself all end in a normal return. *)
Theorem run_script_outcome (h : host) :
  (run_script h).1 =
    (if os_path_exists h (target_path h) then
       match enumerated h with
       | Some adapters =>
           match (select_guids_for_tweaks adapters (stdin_lines h)).1.1 with
           | Raised e => RunRaised e
           | Returned _ => RunReturned
           end
       | None => RunReturned
       end
     else RunReturned)
  ∧ List.filter is_elevation (run_script h).2 =
    (if os_path_exists h (target_path h) then
       match enumerated h with
       | Some adapters =>
           match (select_guids_for_tweaks adapters (stdin_lines h)).1.1 with
           | Raised _ => []
           | Returned selected_guids =>
               [ShellExecuteW "runas" "powershell.exe"
                  (script_parameters (target_path h) selected_guids) 1]
           end
       | None => []
       end
     else []).
Proof.
  destruct (os_path_exists h (target_path h)) eqn:Hfound.
  2: { by rewrite run_script_not_found. }
  rewrite run_script_found by done. unfold enumerated.
  pose proof (enumerator_quiet (powershell_query h) (json_loads h)) as [_ Hel].
  destruct (get_network_adapters_from_powershell (powershell_query h) (json_loads h))
    as [[adapters|] out_enum]; cbn [fst snd] in *.
  - pose proof (select_guids_for_tweaks_console adapters (stdin_lines h)) as Hcon.
    destruct (select_guids_for_tweaks adapters (stdin_lines h)) as [[o unread] out_sel].
    cbn [fst snd] in *. destruct o as [selected_guids|e]; cbn [fst snd].
    + pose proof (launch_events h (target_path h) selected_guids) as [_ Hlel].
      split; [done|].
      rewrite !List.filter_app, Hlel. by rewrite !filter_elevation_none.
    + split; [done|]. rewrite List.filter_app. by rewrite !filter_elevation_none.
  - split; [done|]. rewrite List.filter_app. by rewrite filter_elevation_none.
Qed.

Lemma well_formed_selection_total_witness : EOFError = EOFError.
Proof.
  apply (well_formed_selection_total [eth; wifi] ["1"; "9"; "x"] EOFError).
  - repeat constructor; eexists; reflexivity.
  - vm_compute. reflexivity.
Defined.
